(** * flac_player: the SDL playback engines

    A shallow embedding of [src/sdl/audio_engine.cpp] (the SDL3 engine) and
    [src/sdl/audio_engine_sdl2.cpp] (the SDL2 engine), and the properties of
    the play-head / current-time reconciliation proved or refuted on it.

    Conventions.
    - The global [g_state] is passed explicitly: an exported function
      [void f(args)] becomes [f args : PlayerState -> PlayerState]; a function
      whose C++ evaluation can be undefined (float to [size_t] conversion out
      of range, integer division by zero, signed overflow) returns [option].
    - [float] is IEEE binary32 and [double] is IEEE binary64, computed with
      the bit-level operations of [SpecFloat]; nothing is idealised to real
      numbers.
    - [int] is 32 bits.  [size_t] is [size_bits] wide, a parameter of the
      engines: both files are Emscripten modules, so [size_bits = 32] on the
      default wasm32 target (and 64 under MEMORY64 or a native build).
    - SDL itself is external.  Its audio stream and device queue are
      modelled by what the engine can observe of them: the pending data, the
      gain, the pause flag.  Outcomes that SDL or the allocator decide
      (device ids, stream creation, a throwing [vector::assign]) are inputs
      of the operation that meets them. *)

From Stdlib Require Import ZArith List Bool Lia.
From Stdlib Require Import Floats.SpecFloat.
Import ListNotations.

Local Open Scope Z_scope.

(** ** C++ integer conversions *)

Module CInt.

(** Conversion to an unsigned type of [w] bits: reduction modulo [2^w]. *)
Definition wrap (w x : Z) : Z := x mod 2 ^ w.

(** Conversion to [int] (two's complement, 32 bits). *)
Definition to_int (x : Z) : Z := (x + 2 ^ 31) mod 2 ^ 32 - 2 ^ 31.

(** [Some x] when [x] is an [int] value; signed overflow is undefined. *)
Definition int_checked (x : Z) : option Z :=
  if (- 2 ^ 31 <=? x) && (x <? 2 ^ 31) then Some x else None.

(** [sizeof(float)] *)
Definition sizeof_float : Z := 4.

End CInt.

(** ** [float] and [double] *)

Module F32.

Definition t := spec_float.

Definition prec : Z := 24.
Definition emax : Z := 128.

Definition zero : t := S754_zero false.

(** Integer to [float] conversion, round to nearest even. *)
Definition of_Z (n : Z) : t := binary_normalize prec emax n 0 false.

(** [m * 2^e] rounded to [float]: used to write literals. *)
Definition of_bits (m e : Z) : t := binary_normalize prec emax m e false.

Definition mul : t -> t -> t := SFmul prec emax.
Definition div : t -> t -> t := SFdiv prec emax.
Definition add : t -> t -> t := SFadd prec emax.
Definition sub : t -> t -> t := SFsub prec emax.
Definition ltb : t -> t -> bool := SFltb.
Definition leb : t -> t -> bool := SFleb.
Definition eqb : t -> t -> bool := SFeqb.

(** Truncation toward zero of a finite value; [None] for NaN and the
    infinities. *)
Definition trunc (x : t) : option Z :=
  match x with
  | S754_zero _ => Some 0
  | S754_finite s m e =>
      let v := if 0 <=? e then Zpos m * 2 ^ e else Zpos m / 2 ^ (- e) in
      Some (if s then - v else v)
  | S754_infinity _ | S754_nan => None
  end.

(** [(size_t)x]: the truncated value when [size_t] can hold it, undefined
    otherwise. *)
Definition to_size (w : Z) (x : t) : option Z :=
  match trunc x with
  | Some v => if (0 <=? v) && (v <? 2 ^ w) then Some v else None
  | None => None
  end.

End F32.

Module F64.

Definition t := spec_float.

Definition prec : Z := 53.
Definition emax : Z := 1024.

Definition zero : t := S754_zero false.

Definition of_Z (n : Z) : t := binary_normalize prec emax n 0 false.
Definition div : t -> t -> t := SFdiv prec emax.
Definition sub : t -> t -> t := SFsub prec emax.
Definition ltb : t -> t -> bool := SFltb.

(** [(float)x] for a [double] [x]: one rounding to binary32. *)
Definition to_f32 (x : t) : F32.t :=
  match x with
  | S754_finite s m e => binary_round F32.prec F32.emax s m e
  | _ => x
  end.

End F64.

(** A sample of the decoded PCM buffer. *)
Definition sample := F32.t.

(** What [audioBuffer.assign(data, data + length)] did: it either copied the
    samples, or threw (the [catch] branch of [set_audio_data]), leaving the
    vector with contents the C++ standard does not fix.  Copying [float]s
    cannot throw; only the allocation can, which [assign] attempts when
    [length] exceeds the vector's capacity.  The capacity is not part of
    the model: a throw is to be supplied only for a load longer than every
    buffer the engine has held. *)
Inductive assign_outcome :=
| AssignOk
| AssignThrows (residual : list sample).

(** ** The SDL3 engine: [audio_engine.cpp] *)

Module SDL3.

(** The [SDL_AudioStream] the engine creates with the same source and
    destination spec: the pending samples (put and not yet consumed, as
    the stream reports them), the gain, and whether [SDL_BindAudioStream]
    attached it to the device. *)
Record AudioStream := mkStream {
  st_channels : Z;
  st_freq : Z;
  st_queue : list sample;
  st_gain : F32.t;
  st_bound : bool
}.

(** [struct PlayerState], and [devicePaused]: what the engine last asked
    of the device, [SDL_PauseAudioDevice(deviceId)] or
    [SDL_ResumeAudioDevice(deviceId)].  Whether SDL knows a device under
    the id, and so whether a device changed state, is not modelled. *)
Record PlayerState := mkState {
  stream : option AudioStream;
  audioBuffer : list sample;
  isPlaying : bool;
  volume : F32.t;
  sampleRate : Z;
  channels : Z;
  playHead : Z;
  deviceId : Z;
  devicePaused : bool
}.

(** [g_state] as the initialisers of [struct PlayerState] leave it. *)
Definition g_state0 : PlayerState :=
  mkState None [] false (F32.of_Z 1) 44100 2 0 0 false.

Definition set_stream (v : option AudioStream) (s : PlayerState) :=
  mkState v (audioBuffer s) (isPlaying s) (volume s) (sampleRate s)
          (channels s) (playHead s) (deviceId s) (devicePaused s).
Definition set_audioBuffer (v : list sample) (s : PlayerState) :=
  mkState (stream s) v (isPlaying s) (volume s) (sampleRate s)
          (channels s) (playHead s) (deviceId s) (devicePaused s).
Definition set_isPlaying (v : bool) (s : PlayerState) :=
  mkState (stream s) (audioBuffer s) v (volume s) (sampleRate s)
          (channels s) (playHead s) (deviceId s) (devicePaused s).
Definition set_volume_field (v : F32.t) (s : PlayerState) :=
  mkState (stream s) (audioBuffer s) (isPlaying s) v (sampleRate s)
          (channels s) (playHead s) (deviceId s) (devicePaused s).
Definition set_sampleRate (v : Z) (s : PlayerState) :=
  mkState (stream s) (audioBuffer s) (isPlaying s) (volume s) v
          (channels s) (playHead s) (deviceId s) (devicePaused s).
Definition set_channels (v : Z) (s : PlayerState) :=
  mkState (stream s) (audioBuffer s) (isPlaying s) (volume s) (sampleRate s)
          v (playHead s) (deviceId s) (devicePaused s).
Definition set_playHead (v : Z) (s : PlayerState) :=
  mkState (stream s) (audioBuffer s) (isPlaying s) (volume s) (sampleRate s)
          (channels s) v (deviceId s) (devicePaused s).
Definition set_deviceId (v : Z) (s : PlayerState) :=
  mkState (stream s) (audioBuffer s) (isPlaying s) (volume s) (sampleRate s)
          (channels s) (playHead s) v (devicePaused s).
Definition set_devicePaused (v : bool) (s : PlayerState) :=
  mkState (stream s) (audioBuffer s) (isPlaying s) (volume s) (sampleRate s)
          (channels s) (playHead s) (deviceId s) v.

(** [audioBuffer.size()] *)
Definition size (s : PlayerState) : Z := Z.of_nat (length (audioBuffer s)).

(** *** The stream calls *)

(** [SDL_GetAudioStreamAvailable]: bytes put and not yet consumed,
    [sizeof(float)] for each pending sample.  This is the report of a
    stream whose output has the format of its input, as the engine creates
    it, and of any empty stream.  Bound to a device of another format SDL
    reports the converted amount, which is not computed here: a stream
    holding more samples than the buffer stands for such a report. *)
Definition SDL_GetAudioStreamAvailable (st : AudioStream) : Z :=
  CInt.sizeof_float * Z.of_nat (length (st_queue st)).

(** [SDL_PutAudioStreamData(stream, buf, len)]: appends the [len] bytes at
    [buf]; a negative [len] is refused. *)
Definition SDL_PutAudioStreamData
    (st : AudioStream) (buf : list sample) (len : Z) : AudioStream :=
  if len <? 0 then st
  else mkStream (st_channels st) (st_freq st)
         (st_queue st ++ firstn (Z.to_nat (len / CInt.sizeof_float)) buf)
         (st_gain st) (st_bound st).

Definition SDL_ClearAudioStream (st : AudioStream) : AudioStream :=
  mkStream (st_channels st) (st_freq st) [] (st_gain st) (st_bound st).

Definition SDL_SetAudioStreamGain (st : AudioStream) (g : F32.t) : AudioStream :=
  mkStream (st_channels st) (st_freq st) (st_queue st) g (st_bound st).

(** The device consuming the first [n] pending samples. *)
Definition drain (n : nat) (st : AudioStream) : AudioStream :=
  mkStream (st_channels st) (st_freq st) (skipn n (st_queue st))
           (st_gain st) (st_bound st).

(** What SDL and the allocator answer during [set_audio_data]. *)
Record LoadEnv := mkLoadEnv {
  assign_result : assign_outcome;
  create_stream_ok : bool;
  bind_ok : bool
}.

(** The engine after the device consumed [n] pending samples. *)
Definition consumed (n : nat) (s : PlayerState) : PlayerState :=
  match stream s with
  | Some st => set_stream (Some (drain n st)) s
  | None => s
  end.

Section Engine.

(** Width of [size_t]. *)
Variable size_bits : Z.

Let wrap := CInt.wrap size_bits.

(** [init_audio]: [sdl_ok] is the result of [SDL_Init], [dev] the id
    [SDL_OpenAudioDevice] returns. *)
Definition init_audio (sdl_ok : bool) (dev : Z) (s : PlayerState)
  : Z * PlayerState :=
  if negb sdl_ok then (0, s)
  else
    let s := set_deviceId dev s in
    if dev =? 0 then (0, s) else (1, s).

(** [set_audio_data(data, length, channels, sampleRate)]; [data] holds
    the [length] samples. *)
Definition set_audio_data (env : LoadEnv) (data : list sample)
    (channels' sampleRate' : Z) (s : PlayerState) : PlayerState :=
  (* Stop current playback *)
  let s := match stream s with
           | Some _ => set_stream None s
           | None => s
           end in
  match assign_result env with
  | AssignThrows residual => set_audioBuffer residual s
  | AssignOk =>
      let s := set_audioBuffer data s in
      let s := set_channels channels' s in
      let s := set_sampleRate sampleRate' s in
      let s := set_playHead 0 s in
      let s := set_isPlaying false s in
      if create_stream_ok env then
        set_stream
          (Some (mkStream channels' sampleRate' [] (F32.of_Z 1) (bind_ok env)))
          s
      else s
  end.

Definition play (s : PlayerState) : PlayerState :=
  match stream s with
  | None => s
  | Some st =>
      if (size s =? 0) then s
      else if isPlaying s then s
      else
        let s := set_isPlaying true s in
        let s := set_devicePaused false s in
        let queued := SDL_GetAudioStreamAvailable st in
        if (queued =? 0) && (playHead s <? size s) then
          let samplesRemaining := wrap (size s - playHead s) in
          set_stream
            (Some (SDL_PutAudioStreamData st
                     (skipn (Z.to_nat (playHead s)) (audioBuffer s))
                     (CInt.to_int (wrap (samplesRemaining * CInt.sizeof_float)))))
            s
        else s
  end.

Definition pause_audio (s : PlayerState) : PlayerState :=
  if negb (isPlaying s) then s
  else set_devicePaused true (set_isPlaying false s).

Definition resume_audio (s : PlayerState) : PlayerState :=
  if isPlaying s then s
  else set_devicePaused false (set_isPlaying true s).

Definition stop (s : PlayerState) : PlayerState :=
  match stream s with
  | None => s
  | Some st =>
      set_playHead 0
        (set_isPlaying false
           (set_stream (Some (SDL_ClearAudioStream st)) s))
  end.

(** The index [seek] computes: [None] where the C++ is undefined. *)
Definition seek_index (time : F32.t) (s : PlayerState) : option Z :=
  match F32.to_size size_bits (F32.mul time (F32.of_Z (sampleRate s))) with
  | None => None
  | Some n =>
      let ch := wrap (channels s) in
      let sampleIndex := wrap (n * ch) in
      if ch =? 0 then None
      else
        (* Align to channels *)
        let sampleIndex := wrap (sampleIndex - sampleIndex mod ch) in
        Some (if size s <=? sampleIndex then size s else sampleIndex)
  end.

Definition seek (time : F32.t) (s : PlayerState) : option PlayerState :=
  match stream s with
  | None => Some s
  | Some st =>
      if (size s =? 0) then Some s
      else
        match seek_index time s with
        | None => None
        | Some sampleIndex =>
            let s := set_playHead sampleIndex s in
            let st := SDL_ClearAudioStream st in
            let s := set_stream (Some st) s in
            if isPlaying s then
              let samplesRemaining := wrap (size s - playHead s) in
              if 0 <? samplesRemaining then
                Some (set_stream
                        (Some (SDL_PutAudioStreamData st
                                 (skipn (Z.to_nat (playHead s)) (audioBuffer s))
                                 (CInt.to_int (wrap (samplesRemaining * CInt.sizeof_float)))))
                        s)
              else Some s
            else Some s
        end
  end.

(** The play-head invariant of the data model: inside the buffer and on a
    frame boundary. *)
Definition frame_aligned (s : PlayerState) : Prop :=
  0 <= playHead s <= size s /\ playHead s mod wrap (channels s) = 0.

(** The sample index [get_current_time] reconstructs from the pending
    byte count [queuedBytes]. *)
Definition current_sample_index (queuedBytes : Z) (s : PlayerState) : Z :=
  let samplesQueued := wrap queuedBytes / CInt.sizeof_float in
  let totalSamplesToPlay := wrap (size s - playHead s) in
  let samplesPlayedSinceSeek := wrap (totalSamplesToPlay - samplesQueued) in
  let currentSampleIndex := wrap (playHead s + samplesPlayedSinceSeek) in
  if size s <? currentSampleIndex then size s else currentSampleIndex.

(** [get_current_time]: the result and the state it leaves; [None] when
    the frame count divides by zero. *)
Definition get_current_time (s : PlayerState) : option (F32.t * PlayerState) :=
  match stream s with
  | None => Some (F32.zero, s)
  | Some st =>
      if (size s =? 0) then Some (F32.zero, s)
      else
        let queuedBytes := SDL_GetAudioStreamAvailable st in
        let currentSampleIndex := current_sample_index queuedBytes s in
        let ch := wrap (channels s) in
        if ch =? 0 then None
        else
          let frames := currentSampleIndex / ch in
          Some (F32.div (F32.of_Z frames) (F32.of_Z (sampleRate s)), s)
  end.

Definition set_volume (vol : F32.t) (s : PlayerState) : PlayerState :=
  let s := set_volume_field vol s in
  match stream s with
  | Some st => set_stream (Some (SDL_SetAudioStreamGain st vol)) s
  | None => s
  end.

Definition cleanup (s : PlayerState) : PlayerState :=
  set_audioBuffer [] (set_deviceId 0 (set_stream None s)).

(** *** Sequences of calls *)

(** One call of the exported interface, with what SDL answers during it;
    [Consume n] is the device taking [n] pending samples between two
    calls. *)
Inductive call :=
| CallInit (sdl_ok : bool) (dev : Z)
| CallLoad (env : LoadEnv) (data : list sample) (channels' sampleRate' : Z)
| CallPlay
| CallPause
| CallResume
| CallStop
| CallSeek (time : F32.t)
| CallGetTime
| CallSetVolume (vol : F32.t)
| CallCleanup
| Consume (n : nat).

Definition step (c : call) (s : PlayerState) : option PlayerState :=
  match c with
  | CallInit sdl_ok dev => Some (snd (init_audio sdl_ok dev s))
  | CallLoad env data ch sr => Some (set_audio_data env data ch sr s)
  | CallPlay => Some (play s)
  | CallPause => Some (pause_audio s)
  | CallResume => Some (resume_audio s)
  | CallStop => Some (stop s)
  | CallSeek t => seek t s
  | CallGetTime => option_map snd (get_current_time s)
  | CallSetVolume vol => Some (set_volume vol s)
  | CallCleanup => Some (cleanup s)
  | Consume n => Some (consumed n s)
  end.

Fixpoint run (cs : list call) (s : PlayerState) : option PlayerState :=
  match cs with
  | [] => Some s
  | c :: cs' =>
      match step c s with
      | Some s' => run cs' s'
      | None => None
      end
  end.

(** A load hands over a whole number of frames. *)
Definition whole_frames (c : call) : Prop :=
  match c with
  | CallLoad _ data ch _ => Z.of_nat (length data) mod wrap ch = 0
  | _ => True
  end.

End Engine.

End SDL3.

(** ** The SDL2 engine: [audio_engine_sdl2.cpp] *)

Module SDL2.

(** The converting [SDL_AudioStream] (source format to device format): the
    engine moves everything it converts into the device queue at once, so
    the stream is known by its formats and by the converted bytes that are
    ready to be fetched. *)
Record AudioStream := mkStream {
  src_channels : Z;
  src_rate : Z;
  dst_channels : Z;
  dst_rate : Z;
  st_avail : Z
}.

(** [deviceQueued] and [devicePaused] are the state of the opened device:
    the bytes given to [SDL_QueueAudio] and not yet played, and its pause
    flag. *)
Record PlayerState := mkState {
  stream : option AudioStream;
  audioBuffer : list sample;
  isPlaying : bool;
  volume : F32.t;
  sampleRate : Z;
  channels : Z;
  playHead : Z;
  deviceId : Z;
  deviceFreq : Z;
  deviceChannels : Z;
  deviceQueued : Z;
  devicePaused : bool
}.

Definition g_state0 : PlayerState :=
  mkState None [] false (F32.of_Z 1) 44100 2 0 0 44100 2 0 true.

Definition set_stream (v : option AudioStream) (s : PlayerState) :=
  mkState v (audioBuffer s) (isPlaying s) (volume s) (sampleRate s)
          (channels s) (playHead s) (deviceId s) (deviceFreq s)
          (deviceChannels s) (deviceQueued s) (devicePaused s).
Definition set_audioBuffer (v : list sample) (s : PlayerState) :=
  mkState (stream s) v (isPlaying s) (volume s) (sampleRate s)
          (channels s) (playHead s) (deviceId s) (deviceFreq s)
          (deviceChannels s) (deviceQueued s) (devicePaused s).
Definition set_isPlaying (v : bool) (s : PlayerState) :=
  mkState (stream s) (audioBuffer s) v (volume s) (sampleRate s)
          (channels s) (playHead s) (deviceId s) (deviceFreq s)
          (deviceChannels s) (deviceQueued s) (devicePaused s).
Definition set_volume_field (v : F32.t) (s : PlayerState) :=
  mkState (stream s) (audioBuffer s) (isPlaying s) v (sampleRate s)
          (channels s) (playHead s) (deviceId s) (deviceFreq s)
          (deviceChannels s) (deviceQueued s) (devicePaused s).
Definition set_format (ch rate : Z) (s : PlayerState) :=
  mkState (stream s) (audioBuffer s) (isPlaying s) (volume s) rate
          ch (playHead s) (deviceId s) (deviceFreq s)
          (deviceChannels s) (deviceQueued s) (devicePaused s).
Definition set_playHead (v : Z) (s : PlayerState) :=
  mkState (stream s) (audioBuffer s) (isPlaying s) (volume s) (sampleRate s)
          (channels s) v (deviceId s) (deviceFreq s)
          (deviceChannels s) (deviceQueued s) (devicePaused s).
Definition set_deviceFormat (freq ch : Z) (s : PlayerState) :=
  mkState (stream s) (audioBuffer s) (isPlaying s) (volume s) (sampleRate s)
          (channels s) (playHead s) (deviceId s) freq ch
          (deviceQueued s) (devicePaused s).
Definition set_deviceQueued (v : Z) (s : PlayerState) :=
  mkState (stream s) (audioBuffer s) (isPlaying s) (volume s) (sampleRate s)
          (channels s) (playHead s) (deviceId s) (deviceFreq s)
          (deviceChannels s) v (devicePaused s).
Definition set_devicePaused (v : bool) (s : PlayerState) :=
  mkState (stream s) (audioBuffer s) (isPlaying s) (volume s) (sampleRate s)
          (channels s) (playHead s) (deviceId s) (deviceFreq s)
          (deviceChannels s) (deviceQueued s) v.

(** [SDL_OpenAudioDevice] stores the id it returns; a device starts paused
    with an empty queue.  [SDL_CloseAudioDevice] is followed in the source
    by [deviceId = 0]. *)
Definition open_device (dev : Z) (s : PlayerState) :=
  mkState (stream s) (audioBuffer s) (isPlaying s) (volume s) (sampleRate s)
          (channels s) (playHead s) dev (deviceFreq s)
          (deviceChannels s) 0 true.
Definition close_device (s : PlayerState) := open_device 0 s.

Definition size (s : PlayerState) : Z := Z.of_nat (length (audioBuffer s)).

(** The answer of [SDL_OpenAudioDevice]: the id and the obtained spec. *)
Record DeviceOpen := mkDeviceOpen {
  dev_id : Z;
  have_freq : Z;
  have_channels : Z
}.

Record LoadEnv := mkLoadEnv {
  assign_result : assign_outcome;
  device_open : DeviceOpen;
  new_stream_ok : bool
}.

Section Engine.

Variable size_bits : Z.

(** Bytes of device-format audio the stream yields for [len] bytes of
    source-format audio: the resampler is SDL's. *)
Variable converted_size : forall (src_ch src_freq dst_ch dst_freq len : Z), Z.

Let wrap := CInt.wrap size_bits.

Definition SDL_AudioStreamPut (st : option AudioStream) (len : Z)
  : option AudioStream :=
  match st with
  | None => None
  | Some a =>
      if len <? 0 then Some a
      else Some (mkStream (src_channels a) (src_rate a) (dst_channels a)
                   (dst_rate a)
                   (st_avail a + converted_size (src_channels a) (src_rate a)
                                   (dst_channels a) (dst_rate a) len))
  end.

Definition SDL_AudioStreamAvailable (st : option AudioStream) : Z :=
  match st with
  | None => 0
  | Some a => st_avail a
  end.

(** [SDL_AudioStreamGet(stream, buf, len)]: the bytes obtained and the
    stream left. *)
Definition SDL_AudioStreamGet (st : option AudioStream) (len : Z)
  : Z * option AudioStream :=
  match st with
  | None => (-1, None)
  | Some a =>
      let got := Z.min len (st_avail a) in
      (got, Some (mkStream (src_channels a) (src_rate a) (dst_channels a)
                    (dst_rate a) (st_avail a - got)))
  end.

Definition SDL_AudioStreamClear (st : option AudioStream) : option AudioStream :=
  match st with
  | None => None
  | Some a => Some (mkStream (src_channels a) (src_rate a) (dst_channels a)
                      (dst_rate a) 0)
  end.

(** The block shared by [play] and [seek]: put [len] bytes of the buffer
    into the stream, fetch what is converted, queue it on the device. *)
Definition push_converted (len : Z) (s : PlayerState) : PlayerState :=
  let st := SDL_AudioStreamPut (stream s) len in
  let s := set_stream st s in
  let available := SDL_AudioStreamAvailable st in
  if 0 <? available then
    let '(got, st') := SDL_AudioStreamGet st available in
    let s := set_stream st' s in
    if 0 <? got then set_deviceQueued (deviceQueued s + got) s else s
  else s.

Definition init_audio (sdl_ok : bool) (opened : DeviceOpen) (s : PlayerState)
  : Z * PlayerState :=
  if negb sdl_ok then (0, s)
  else
    let s := open_device (dev_id opened) s in
    if dev_id opened =? 0 then (0, s)
    else (1, set_deviceFormat (have_freq opened) (have_channels opened) s).

Definition set_audio_data (env : LoadEnv) (data : list sample)
    (channels' sampleRate' : Z) (s : PlayerState) : PlayerState :=
  let s := match stream s with
           | Some _ => set_stream None s
           | None => s
           end in
  let s := if deviceId s =? 0 then s else close_device s in
  match assign_result env with
  | AssignThrows residual => set_audioBuffer residual s
  | AssignOk =>
      let s := set_audioBuffer data s in
      let s := set_format channels' sampleRate' s in
      let s := set_playHead 0 s in
      let s := set_isPlaying false s in
      let opened := device_open env in
      let s := open_device (dev_id opened) s in
      if dev_id opened =? 0 then s
      else
        let s := set_deviceFormat (have_freq opened) (have_channels opened) s in
        if new_stream_ok env then
          set_stream (Some (mkStream channels' sampleRate'
                              (have_channels opened) (have_freq opened) 0)) s
        else s
  end.

Definition play (s : PlayerState) : PlayerState :=
  if (deviceId s =? 0) || (size s =? 0) then s
  else if isPlaying s then s
  else
    let s := set_isPlaying true s in
    let s := set_devicePaused false s in
    let queued := CInt.wrap 32 (deviceQueued s) in
    if (queued =? 0) && (playHead s <? size s) then
      let samplesRemaining := wrap (size s - playHead s) in
      push_converted (CInt.to_int (wrap (samplesRemaining * CInt.sizeof_float))) s
    else s.

Definition pause_audio (s : PlayerState) : PlayerState :=
  if negb (isPlaying s) then s
  else set_devicePaused true (set_isPlaying false s).

Definition resume_audio (s : PlayerState) : PlayerState :=
  if isPlaying s then s else play s.

Definition stop (s : PlayerState) : PlayerState :=
  if deviceId s =? 0 then s
  else
    let s := set_deviceQueued 0 s in
    let s := set_stream (SDL_AudioStreamClear (stream s)) s in
    set_playHead 0 (set_isPlaying false s).

Definition seek_index (time : F32.t) (s : PlayerState) : option Z :=
  match F32.to_size size_bits (F32.mul time (F32.of_Z (sampleRate s))) with
  | None => None
  | Some n =>
      let ch := wrap (channels s) in
      let sampleIndex := wrap (n * ch) in
      if ch =? 0 then None
      else
        let sampleIndex := wrap (sampleIndex - sampleIndex mod ch) in
        Some (if size s <=? sampleIndex then size s else sampleIndex)
  end.

(** [seek].  The refill is not guarded by [samplesRemaining > 0] as it is
    in the SDL3 engine: with the play-head at the end the source passes
    [&audioBuffer[size]] with a length of 0, which is taken here as a put
    of no data. *)
Definition seek (time : F32.t) (s : PlayerState) : option PlayerState :=
  if (deviceId s =? 0) || (size s =? 0) then Some s
  else
    match seek_index time s with
    | None => None
    | Some sampleIndex =>
        let s := set_playHead sampleIndex s in
        let s := set_deviceQueued 0 s in
        let s := set_stream (SDL_AudioStreamClear (stream s)) s in
        if isPlaying s then
          (* Refill immediately *)
          let samplesRemaining := wrap (size s - playHead s) in
          Some (push_converted
                  (CInt.to_int (wrap (samplesRemaining * CInt.sizeof_float))) s)
        else Some s
    end.

(** [get_current_time]: [None] when [channels * sampleRate] overflows
    [int]. *)
Definition get_current_time (s : PlayerState) : option (F32.t * PlayerState) :=
  if (deviceId s =? 0) || (size s =? 0) then Some (F32.zero, s)
  else
    let queuedBytes := CInt.wrap 32 (deviceQueued s) in
    let queuedSeconds :=
      F64.div (F64.of_Z queuedBytes)
              (F64.of_Z (wrap (wrap (CInt.sizeof_float * wrap (deviceChannels s))
                               * wrap (deviceFreq s)))) in
    match CInt.int_checked (channels s * sampleRate s) with
    | None => None
    | Some d =>
        let totalDuration := F64.div (F64.of_Z (size s)) (F64.of_Z d) in
        let currentTime := F64.sub totalDuration queuedSeconds in
        (* Clamp *)
        let currentTime :=
          if F64.ltb currentTime F64.zero then F64.zero else currentTime in
        let currentTime :=
          if F64.ltb totalDuration currentTime then totalDuration
          else currentTime in
        Some (F64.to_f32 currentTime, s)
    end.

Definition set_volume (vol : F32.t) (s : PlayerState) : PlayerState :=
  set_volume_field vol s.

(** [cleanup]: the stream is freed and the device closed, but neither
    [g_state.stream] nor [g_state.deviceId] is reset and [playHead] is
    kept; the buffer is cleared. *)
Definition cleanup (s : PlayerState) : PlayerState :=
  let s := if deviceId s =? 0 then s else set_deviceQueued 0 s in
  set_audioBuffer [] s.

(** What the calls keep, [cleanup] included, which empties the buffer
    under the play-head: play-head and buffer hold whole frames, and the
    play-head is inside the buffer whenever there is one. *)
Definition frames_kept (s : PlayerState) : Prop :=
  playHead s mod wrap (channels s) = 0
  /\ size s mod wrap (channels s) = 0
  /\ (audioBuffer s <> [] -> 0 <= playHead s <= size s).

(** *** Sequences of calls *)

(** [Played n] is the device playing [n] queued bytes between two calls. *)
Inductive call :=
| CallInit (sdl_ok : bool) (opened : DeviceOpen)
| CallLoad (env : LoadEnv) (data : list sample) (channels' sampleRate' : Z)
| CallPlay
| CallPause
| CallResume
| CallStop
| CallSeek (time : F32.t)
| CallGetTime
| CallSetVolume (vol : F32.t)
| CallCleanup
| Played (n : Z).

Definition played (n : Z) (s : PlayerState) : PlayerState :=
  set_deviceQueued (Z.max 0 (deviceQueued s - n)) s.

(** The engine within a sequence of calls: its state, and whether
    [g_state.stream] still holds a stream that [cleanup] has freed. *)
Record Session := mkSession {
  engine : PlayerState;
  stream_freed : bool
}.

Definition session0 : Session := mkSession g_state0 false.

(** One call.  Handing a freed stream to SDL is undefined: a load and a
    second [cleanup] free it again, [stop] clears it when a device id is
    set, [play], [resume_audio] and [seek] put data into it once they are
    past their guard on the device id and the buffer. *)
Definition step (c : call) (x : Session) : option Session :=
  let s := engine x in
  let keep (s' : PlayerState) := Some (mkSession s' (stream_freed x)) in
  let guarded := (deviceId s =? 0) || (size s =? 0) in
  match c with
  | CallInit sdl_ok opened => keep (snd (init_audio sdl_ok opened s))
  | CallLoad env data ch sr =>
      if stream_freed x then None
      else keep (set_audio_data env data ch sr s)
  | CallPlay =>
      if stream_freed x && negb guarded then None else keep (play s)
  | CallPause => keep (pause_audio s)
  | CallResume =>
      if stream_freed x && negb guarded then None else keep (resume_audio s)
  | CallStop =>
      if stream_freed x && negb (deviceId s =? 0) then None
      else keep (stop s)
  | CallSeek t =>
      if stream_freed x && negb guarded then None
      else match seek t s with
           | Some s' => keep s'
           | None => None
           end
  | CallGetTime =>
      match get_current_time s with
      | Some (_, s') => keep s'
      | None => None
      end
  | CallSetVolume vol => keep (set_volume vol s)
  | CallCleanup =>
      if stream_freed x then None
      else Some (mkSession (cleanup s)
                   (match stream s with Some _ => true | None => false end))
  | Played n => keep (played n s)
  end.

Fixpoint run (cs : list call) (x : Session) : option Session :=
  match cs with
  | [] => Some x
  | c :: cs' =>
      match step c x with
      | Some x' => run cs' x'
      | None => None
      end
  end.

(** A load whose copy succeeds and hands over a whole number of frames. *)
Definition whole_frames (c : call) : Prop :=
  match c with
  | CallLoad env data ch _ =>
      assign_result env = AssignOk
      /\ Z.of_nat (length data) mod wrap ch = 0
  | _ => True
  end.

End Engine.

End SDL2.

(** ** Concrete engines used to evaluate the code *)

Module Scenario.

(** Sixteen samples: eight stereo frames, four seconds at 2 Hz. *)
Definition track16 : list sample :=
  map F32.of_Z [1; 2; 3; 4; 5; 6; 7; 8; 9; 10; 11; 12; 13; 14; 15; 16].

(** One second of stereo silence at 8000 Hz. *)
Definition silence16000 : list sample := repeat F32.zero (Z.to_nat 16000).

Definition one : F32.t := F32.of_Z 1.
Definition four : F32.t := F32.of_Z 4.
Definition half : F32.t := F32.of_bits 1 (-1).

(** *** SDL3 *)

Definition env3 : SDL3.LoadEnv := SDL3.mkLoadEnv AssignOk true true.

(** [init_audio] succeeded and opened device 1. *)
Definition sdl3_ready : SDL3.PlayerState :=
  snd (SDL3.init_audio true 1 SDL3.g_state0).

(** [track16] loaded as stereo at 2 Hz; nothing played yet. *)
Definition sdl3_loaded : SDL3.PlayerState :=
  SDL3.set_audio_data env3 track16 2 2 sdl3_ready.

Definition sdl3_playing (w : Z) : SDL3.PlayerState :=
  SDL3.play w sdl3_loaded.

(** Playing from the start, with [pending] samples reported by the stream.
    SDL3 gives a bound stream the device's output format, so on a device
    with more channels or a higher rate than the track the stream reports
    more data than the buffer holds. *)
Definition sdl3_pending (pending : list sample) : SDL3.PlayerState :=
  SDL3.mkState
    (Some (SDL3.mkStream 2 2 pending one true))
    track16 true one 2 2 0 1 false.

Definition pending20 : list sample := track16 ++ map F32.of_Z [17; 18; 19; 20].

(** [silence16000] loaded as stereo at 8000 Hz. *)
Definition sdl3_silence : SDL3.PlayerState :=
  SDL3.set_audio_data env3 silence16000 2 8000 sdl3_ready.

(** *** SDL2 *)

(** A resampler that converts whole frames exactly. *)
Definition ideal_converted_size (src_ch src_freq dst_ch dst_freq len : Z) : Z :=
  len / (CInt.sizeof_float * src_ch) * dst_freq / src_freq
  * (CInt.sizeof_float * dst_ch).

Definition env2 : SDL2.LoadEnv :=
  SDL2.mkLoadEnv AssignOk (SDL2.mkDeviceOpen 1 48000 2) true.

Definition sdl2_ready : SDL2.PlayerState :=
  snd (SDL2.init_audio true (SDL2.mkDeviceOpen 1 44100 2) SDL2.g_state0).

Definition sdl2_loaded : SDL2.PlayerState :=
  SDL2.set_audio_data env2 track16 2 2 sdl2_ready.

Definition sdl2_silence : SDL2.PlayerState :=
  SDL2.set_audio_data env2 silence16000 2 8000 sdl2_ready.

(** *** A session *)

(** Start the engine, load [track16], play, let the device take two
    frames, poll the time, seek while playing, pause, seek while paused,
    change the volume, play again, stop, resume. *)
Definition session3 : list SDL3.call :=
  [ SDL3.CallInit true 1;
    SDL3.CallLoad env3 track16 2 2;
    SDL3.CallPlay;
    SDL3.Consume 4;
    SDL3.CallGetTime;
    SDL3.CallSeek one;
    SDL3.CallPause;
    SDL3.CallSeek (F32.of_Z 3);
    SDL3.CallSetVolume half;
    SDL3.CallPlay;
    SDL3.CallStop;
    SDL3.CallResume ].

Definition session2 : list SDL2.call :=
  [ SDL2.CallInit true (SDL2.mkDeviceOpen 1 44100 2);
    SDL2.CallLoad env2 track16 2 2;
    SDL2.CallPlay;
    SDL2.Played 384000;
    SDL2.CallGetTime;
    SDL2.CallSeek one;
    SDL2.CallPause;
    SDL2.CallSeek (F32.of_Z 3);
    SDL2.CallSetVolume half;
    SDL2.CallPlay;
    SDL2.CallStop;
    SDL2.CallResume;
    SDL2.CallSeek one;
    SDL2.CallCleanup;
    SDL2.CallPlay;
    SDL2.CallGetTime ].

(** *** Seek targets far beyond the end of a one-second track *)

(** 268436 s: [268436 * 8000 * 2] exceeds [2^32]. *)
Definition far32 : F32.t := F32.of_Z 268436.

(** 8589935 * 2^27 s, about 1.15e15 s: times 8000 it rounds to [2^63]. *)
Definition far64 : F32.t := F32.of_bits 8589935 27.

End Scenario.

(** * Properties *)

Import Scenario.

(** ** Unsigned arithmetic *)

Lemma wrap_small (w x : Z) : 0 <= x < 2 ^ w -> CInt.wrap w x = x.
Proof. intros H. unfold CInt.wrap. now apply Z.mod_small. Qed.

Lemma wrap_range (w x : Z) : 0 <= w -> 0 <= CInt.wrap w x < 2 ^ w.
Proof.
  intros Hw. unfold CInt.wrap. apply Z.mod_pos_bound.
  now apply Z.pow_pos_nonneg.
Qed.

Lemma wrap_add_idem (w a b : Z) :
  CInt.wrap w (a + CInt.wrap w b) = CInt.wrap w (a + b).
Proof. unfold CInt.wrap. apply Zplus_mod_idemp_r. Qed.

Lemma to_int_small (x : Z) : 0 <= x < 2 ^ 31 -> CInt.to_int x = x.
Proof.
  intros H. unfold CInt.to_int.
  rewrite Z.mod_small; lia.
Qed.

Lemma sdl3_size_nonneg (s : SDL3.PlayerState) : 0 <= SDL3.size s.
Proof. unfold SDL3.size. lia. Qed.

(** ** Idempotence of play and pause *)

Lemma sdl3_pause_idem (s : SDL3.PlayerState) :
  SDL3.pause_audio (SDL3.pause_audio s) = SDL3.pause_audio s.
Proof.
  unfold SDL3.pause_audio.
  destruct (SDL3.isPlaying s) eqn:E; cbn; [reflexivity | now rewrite E].
Qed.

(** [play] returns at once on a bound, loaded engine that is playing. *)
Lemma sdl3_play_playing (w : Z) (s : SDL3.PlayerState) :
  SDL3.stream s <> None -> SDL3.isPlaying s = true -> SDL3.play w s = s.
Proof.
  intros Hs Hp. unfold SDL3.play.
  destruct (SDL3.stream s); [|congruence].
  rewrite Hp. now destruct (SDL3.size s =? 0).
Qed.

(** Either [play] changed nothing, or it left a bound engine playing. *)
Lemma sdl3_play_cases (w : Z) (s : SDL3.PlayerState) :
  SDL3.play w s = s
  \/ (SDL3.stream (SDL3.play w s) <> None
      /\ SDL3.isPlaying (SDL3.play w s) = true).
Proof.
  unfold SDL3.play.
  destruct (SDL3.stream s) eqn:Es; [|now left].
  destruct (SDL3.size s =? 0); [now left|].
  destruct (SDL3.isPlaying s); [now left|].
  right. destruct (_ && _); cbn; [split; congruence|].
  rewrite Es. split; congruence.
Qed.

Lemma sdl3_play_idem (w : Z) (s : SDL3.PlayerState) :
  SDL3.play w (SDL3.play w s) = SDL3.play w s.
Proof.
  destruct (sdl3_play_cases w s) as [H | [Hs Hp]].
  - now rewrite H.
  - now apply sdl3_play_playing.
Qed.

Lemma sdl3_play_empty (w : Z) (s : SDL3.PlayerState) :
  SDL3.audioBuffer s = [] -> SDL3.play w s = s.
Proof.
  intros H. unfold SDL3.play, SDL3.size. rewrite H. cbn.
  now destruct (SDL3.stream s).
Qed.

Lemma sdl3_pause_paused (s : SDL3.PlayerState) :
  SDL3.isPlaying s = false -> SDL3.pause_audio s = s.
Proof. intros H. unfold SDL3.pause_audio. now rewrite H. Qed.

Lemma sdl2_pause_idem (s : SDL2.PlayerState) :
  SDL2.pause_audio (SDL2.pause_audio s) = SDL2.pause_audio s.
Proof.
  unfold SDL2.pause_audio.
  destruct (SDL2.isPlaying s) eqn:E; cbn; [reflexivity | now rewrite E].
Qed.

(** [push_converted] touches the stream and the device queue only. *)
Lemma sdl2_push_converted_frame conv (len : Z) (s : SDL2.PlayerState) :
  let s' := SDL2.push_converted conv len s in
  SDL2.audioBuffer s' = SDL2.audioBuffer s
  /\ SDL2.isPlaying s' = SDL2.isPlaying s
  /\ SDL2.deviceId s' = SDL2.deviceId s
  /\ SDL2.playHead s' = SDL2.playHead s
  /\ SDL2.channels s' = SDL2.channels s
  /\ SDL2.sampleRate s' = SDL2.sampleRate s.
Proof.
  unfold SDL2.push_converted; cbn.
  destruct (0 <? _); [|cbn; now repeat split].
  destruct (SDL2.SDL_AudioStreamGet _ _) as [got st'].
  destruct (0 <? got); cbn; now repeat split.
Qed.

Lemma sdl2_play_playing (w : Z) conv (s : SDL2.PlayerState) :
  SDL2.isPlaying s = true -> SDL2.play w conv s = s.
Proof.
  intros Hp. unfold SDL2.play. rewrite Hp.
  now destruct (_ || _).
Qed.

Lemma sdl2_play_cases (w : Z) conv (s : SDL2.PlayerState) :
  SDL2.play w conv s = s \/ SDL2.isPlaying (SDL2.play w conv s) = true.
Proof.
  unfold SDL2.play.
  destruct (_ || _); [now left|].
  destruct (SDL2.isPlaying s); [now left|].
  right. destruct (_ && _); [|reflexivity].
  match goal with
  | |- SDL2.isPlaying (SDL2.push_converted _ ?len ?s0) = _ =>
      destruct (sdl2_push_converted_frame conv len s0) as (_ & Hp & _)
  end.
  now rewrite Hp.
Qed.

Lemma sdl2_play_idem (w : Z) conv (s : SDL2.PlayerState) :
  SDL2.play w conv (SDL2.play w conv s) = SDL2.play w conv s.
Proof.
  destruct (sdl2_play_cases w conv s) as [H | Hp].
  - now rewrite H.
  - now apply sdl2_play_playing.
Qed.

Lemma sdl2_play_empty (w : Z) conv (s : SDL2.PlayerState) :
  SDL2.audioBuffer s = [] -> SDL2.play w conv s = s.
Proof.
  intros H. unfold SDL2.play, SDL2.size. rewrite H. cbn.
  now rewrite Bool.orb_true_r.
Qed.

Lemma sdl2_pause_paused (s : SDL2.PlayerState) :
  SDL2.isPlaying s = false -> SDL2.pause_audio s = s.
Proof. intros H. unfold SDL2.pause_audio. now rewrite H. Qed.

(** C9.  [pause_audio] and [play] are idempotent in both engines: a second
    call in a row changes nothing, pipeline included; [play] is a no-op on an
    empty buffer and [pause_audio] is a no-op when already paused. *)
Theorem C9_play_pause_idempotent :
  forall (w : Z) (conv : Z -> Z -> Z -> Z -> Z -> Z)
         (s3 : SDL3.PlayerState) (s2 : SDL2.PlayerState),
    SDL3.pause_audio (SDL3.pause_audio s3) = SDL3.pause_audio s3
    /\ SDL3.play w (SDL3.play w s3) = SDL3.play w s3
    /\ (SDL3.audioBuffer s3 = [] -> SDL3.play w s3 = s3)
    /\ (SDL3.isPlaying s3 = false -> SDL3.pause_audio s3 = s3)
    /\ SDL2.pause_audio (SDL2.pause_audio s2) = SDL2.pause_audio s2
    /\ SDL2.play w conv (SDL2.play w conv s2) = SDL2.play w conv s2
    /\ (SDL2.audioBuffer s2 = [] -> SDL2.play w conv s2 = s2)
    /\ (SDL2.isPlaying s2 = false -> SDL2.pause_audio s2 = s2).
Proof.
  intros w conv s3 s2.
  repeat split.
  - apply sdl3_pause_idem.
  - apply sdl3_play_idem.
  - apply sdl3_play_empty.
  - apply sdl3_pause_paused.
  - apply sdl2_pause_idem.
  - apply sdl2_play_idem.
  - apply sdl2_play_empty.
  - apply sdl2_pause_paused.
Qed.

Lemma C9_play_pause_idempotent_witness :
  SDL3.play 32 SDL3.g_state0 = SDL3.g_state0
  /\ SDL3.pause_audio SDL3.g_state0 = SDL3.g_state0
  /\ SDL3.play 32 (SDL3.play 32 sdl3_loaded) = SDL3.play 32 sdl3_loaded
  /\ SDL2.play 32 ideal_converted_size SDL2.g_state0 = SDL2.g_state0
  /\ SDL2.pause_audio SDL2.g_state0 = SDL2.g_state0.
Proof.
  destruct (C9_play_pause_idempotent 32 ideal_converted_size
              SDL3.g_state0 SDL2.g_state0)
    as (_ & _ & H3 & H4 & _ & _ & H7 & H8).
  destruct (C9_play_pause_idempotent 32 ideal_converted_size
              sdl3_loaded SDL2.g_state0)
    as (_ & Hplay & _).
  exact (conj (H3 eq_refl)
           (conj (H4 eq_refl)
              (conj Hplay (conj (H7 eq_refl) (H8 eq_refl))))).
Defined.

(** ** Current time without a pipeline or without samples *)

Lemma sdl3_size_nil (s : SDL3.PlayerState) :
  SDL3.audioBuffer s = [] -> SDL3.size s = 0.
Proof. intros H. unfold SDL3.size. now rewrite H. Qed.

Lemma sdl2_size_nil (s : SDL2.PlayerState) :
  SDL2.audioBuffer s = [] -> SDL2.size s = 0.
Proof. intros H. unfold SDL2.size. now rewrite H. Qed.

Lemma sdl3_time_unbound (w : Z) (s : SDL3.PlayerState) :
  SDL3.stream s = None \/ SDL3.audioBuffer s = [] ->
  SDL3.get_current_time w s = Some (F32.zero, s).
Proof.
  intros [H | H]; unfold SDL3.get_current_time.
  - now rewrite H.
  - rewrite (sdl3_size_nil s H). now destruct (SDL3.stream s).
Qed.

Lemma sdl2_time_unbound (w : Z) (s : SDL2.PlayerState) :
  SDL2.deviceId s = 0 \/ SDL2.audioBuffer s = [] ->
  SDL2.get_current_time w s = Some (F32.zero, s).
Proof.
  intros [H | H]; unfold SDL2.get_current_time.
  - now rewrite H.
  - rewrite (sdl2_size_nil s H). cbn. now rewrite Bool.orb_true_r.
Qed.

Lemma sdl3_play_unbound (w : Z) (s : SDL3.PlayerState) :
  SDL3.stream s = None -> SDL3.play w s = s.
Proof. intros H. unfold SDL3.play. now rewrite H. Qed.

Lemma sdl3_seek_unbound (w : Z) (t : F32.t) (s : SDL3.PlayerState) :
  SDL3.stream s = None \/ SDL3.audioBuffer s = [] -> SDL3.seek w t s = Some s.
Proof.
  intros [H | H]; unfold SDL3.seek.
  - now rewrite H.
  - rewrite (sdl3_size_nil s H). now destruct (SDL3.stream s).
Qed.

Lemma sdl2_play_unbound (w : Z) conv (s : SDL2.PlayerState) :
  SDL2.deviceId s = 0 -> SDL2.play w conv s = s.
Proof. intros H. unfold SDL2.play. now rewrite H. Qed.

Lemma sdl2_seek_unbound (w : Z) conv (t : F32.t) (s : SDL2.PlayerState) :
  SDL2.deviceId s = 0 \/ SDL2.audioBuffer s = [] -> SDL2.seek w conv t s = Some s.
Proof.
  intros [H | H]; unfold SDL2.seek.
  - now rewrite H.
  - rewrite (sdl2_size_nil s H). cbn. now rewrite Bool.orb_true_r.
Qed.




(** ** Loading *)

(** C5 (the claim fails on the code).  [set_audio_data] has no notion of an
    invalid format: loading one sample with zero channels and rate zero into
    the playing engine replaces the buffer, resets the play-head and the
    playing flag and drops the stream, in both engines. *)
Lemma C5_invalid_format_is_not_rejected :
  let s3 := sdl3_playing 32 in
  let s3' := SDL3.set_audio_data (SDL3.mkLoadEnv AssignOk false false) [one] 0 0 s3 in
  let s2 := SDL2.play 32 ideal_converted_size sdl2_loaded in
  let s2' := SDL2.set_audio_data
               (SDL2.mkLoadEnv AssignOk (SDL2.mkDeviceOpen 0 0 0) false) [one] 0 0 s2 in
  (SDL3.isPlaying s3 = true /\ SDL3.audioBuffer s3 = track16
   /\ SDL3.stream s3 <> None
   /\ SDL3.isPlaying s3' = false /\ SDL3.audioBuffer s3' = [one]
   /\ SDL3.channels s3' = 0 /\ SDL3.stream s3' = None)
  /\ (SDL2.isPlaying s2 = true /\ SDL2.audioBuffer s2 = track16
      /\ SDL2.deviceId s2 = 1
      /\ SDL2.isPlaying s2' = false /\ SDL2.audioBuffer s2' = [one]
      /\ SDL2.channels s2' = 0 /\ SDL2.deviceId s2' = 0).
Proof.
  cbv zeta.
  repeat match goal with |- _ /\ _ => split end;
    try (vm_compute; reflexivity).
  vm_compute. discriminate.
Qed.

(** C5, as the code has it.  A load with [channels <= 0] or
    [sampleRate <= 0] whose sample copy succeeds is carried out like any
    other: the buffer is replaced, the format is stored as given, the
    play-head is 0 and the engine is paused.  The previous stream is gone;
    SDL3 holds a new one exactly when SDL created it, SDL2 has the device
    SDL opened, with an empty queue. *)
Theorem C5_load_does_not_validate_format :
  forall (e3 : SDL3.LoadEnv) (e2 : SDL2.LoadEnv) (data : list sample)
         (ch sr : Z) (s3 : SDL3.PlayerState) (s2 : SDL2.PlayerState),
    ch <= 0 \/ sr <= 0 ->
    SDL3.assign_result e3 = AssignOk ->
    SDL2.assign_result e2 = AssignOk ->
    let s3' := SDL3.set_audio_data e3 data ch sr s3 in
    let s2' := SDL2.set_audio_data e2 data ch sr s2 in
    (SDL3.audioBuffer s3' = data
     /\ SDL3.channels s3' = ch
     /\ SDL3.sampleRate s3' = sr
     /\ SDL3.playHead s3' = 0
     /\ SDL3.isPlaying s3' = false
     /\ SDL3.stream s3' =
          if SDL3.create_stream_ok e3
          then Some (SDL3.mkStream ch sr [] (F32.of_Z 1) (SDL3.bind_ok e3))
          else None)
    /\ (SDL2.audioBuffer s2' = data
        /\ SDL2.channels s2' = ch
        /\ SDL2.sampleRate s2' = sr
        /\ SDL2.playHead s2' = 0
        /\ SDL2.isPlaying s2' = false
        /\ SDL2.deviceId s2' = SDL2.dev_id (SDL2.device_open e2)
        /\ SDL2.deviceQueued s2' = 0
        /\ SDL2.stream s2' =
             if (SDL2.dev_id (SDL2.device_open e2) =? 0)
                || negb (SDL2.new_stream_ok e2)
             then None
             else Some (SDL2.mkStream ch sr
                          (SDL2.have_channels (SDL2.device_open e2))
                          (SDL2.have_freq (SDL2.device_open e2)) 0)).
Proof.
  intros e3 e2 data ch sr s3 s2 _ H3 H2 s3' s2'. subst s3' s2'. split.
  - unfold SDL3.set_audio_data. rewrite H3.
    destruct (SDL3.stream s3) eqn:Es, (SDL3.create_stream_ok e3); cbn;
      rewrite ?Es;
      repeat match goal with |- _ /\ _ => split end; reflexivity.
  - unfold SDL2.set_audio_data. rewrite H2.
    destruct (SDL2.stream s2) eqn:Es, (SDL2.deviceId _ =? 0),
      (SDL2.dev_id (SDL2.device_open e2) =? 0), (SDL2.new_stream_ok e2); cbn;
      rewrite ?Es;
      repeat match goal with |- _ /\ _ => split end; reflexivity.
Qed.

Lemma C5_load_does_not_validate_format_witness :
  let s3' := SDL3.set_audio_data (SDL3.mkLoadEnv AssignOk false false)
               [one] 0 0 (sdl3_playing 32) in
  let s2' := SDL2.set_audio_data
               (SDL2.mkLoadEnv AssignOk (SDL2.mkDeviceOpen 0 0 0) false)
               [one] 0 0 sdl2_loaded in
  (SDL3.audioBuffer s3' = [one]
   /\ SDL3.channels s3' = 0
   /\ SDL3.sampleRate s3' = 0
   /\ SDL3.playHead s3' = 0
   /\ SDL3.isPlaying s3' = false
   /\ SDL3.stream s3' = None)
  /\ (SDL2.audioBuffer s2' = [one]
      /\ SDL2.channels s2' = 0
      /\ SDL2.sampleRate s2' = 0
      /\ SDL2.playHead s2' = 0
      /\ SDL2.isPlaying s2' = false
      /\ SDL2.deviceId s2' = 0
      /\ SDL2.deviceQueued s2' = 0
      /\ SDL2.stream s2' = None).
Proof.
  apply (C5_load_does_not_validate_format
           (SDL3.mkLoadEnv AssignOk false false)
           (SDL2.mkLoadEnv AssignOk (SDL2.mkDeviceOpen 0 0 0) false)
           [one] 0 0 (sdl3_playing 32) sdl2_loaded).
  - left. lia.
  - reflexivity.
  - reflexivity.
Defined.




(** ** Calls on an engine with no buffer *)

(** C8 (the claim fails on the code).  [set_volume] always stores the gain:
    on the engine as it starts, with no buffer loaded, [set_volume(0.5)]
    changes the state. *)
Lemma C8_set_volume_changes_state :
  SDL3.audioBuffer SDL3.g_state0 = []
  /\ SDL3.volume (SDL3.set_volume half SDL3.g_state0) = half
  /\ SDL3.volume SDL3.g_state0 = one
  /\ SDL3.set_volume half SDL3.g_state0 <> SDL3.g_state0
  /\ SDL2.audioBuffer SDL2.g_state0 = []
  /\ SDL2.set_volume half SDL2.g_state0 <> SDL2.g_state0.
Proof.
  repeat match goal with |- _ /\ _ => split end;
    try (vm_compute; reflexivity); vm_compute; discriminate.
Qed.

(** C8, as the code has it.  With no buffer loaded [set_volume] reports
    nothing and stores the gain (SDL3 also hands it to a stream that happens
    to be bound); buffer, format, play-head, playing flag, device and pending
    data are untouched.  [play] and [seek] leave the whole state as it is. *)
Theorem C8_no_buffer_calls :
  forall (w : Z) (conv : Z -> Z -> Z -> Z -> Z -> Z) (vol t : F32.t)
         (s3 : SDL3.PlayerState) (s2 : SDL2.PlayerState),
    SDL3.audioBuffer s3 = [] ->
    SDL2.audioBuffer s2 = [] ->
    let s3' := SDL3.set_volume vol s3 in
    let s2' := SDL2.set_volume vol s2 in
    (SDL3.volume s3' = vol
     /\ SDL3.audioBuffer s3' = SDL3.audioBuffer s3
     /\ SDL3.isPlaying s3' = SDL3.isPlaying s3
     /\ SDL3.sampleRate s3' = SDL3.sampleRate s3
     /\ SDL3.channels s3' = SDL3.channels s3
     /\ SDL3.playHead s3' = SDL3.playHead s3
     /\ SDL3.deviceId s3' = SDL3.deviceId s3
     /\ SDL3.devicePaused s3' = SDL3.devicePaused s3
     /\ option_map SDL3.st_queue (SDL3.stream s3')
        = option_map SDL3.st_queue (SDL3.stream s3)
     /\ option_map SDL3.st_gain (SDL3.stream s3')
        = option_map (fun _ => vol) (SDL3.stream s3)
     /\ SDL3.play w s3 = s3
     /\ SDL3.seek w t s3 = Some s3)
    /\ (SDL2.volume s2' = vol
        /\ SDL2.stream s2' = SDL2.stream s2
        /\ SDL2.audioBuffer s2' = SDL2.audioBuffer s2
        /\ SDL2.isPlaying s2' = SDL2.isPlaying s2
        /\ SDL2.sampleRate s2' = SDL2.sampleRate s2
        /\ SDL2.channels s2' = SDL2.channels s2
        /\ SDL2.playHead s2' = SDL2.playHead s2
        /\ SDL2.deviceId s2' = SDL2.deviceId s2
        /\ SDL2.deviceQueued s2' = SDL2.deviceQueued s2
        /\ SDL2.devicePaused s2' = SDL2.devicePaused s2
        /\ SDL2.play w conv s2 = s2
        /\ SDL2.seek w conv t s2 = Some s2).
Proof.
  intros w conv vol t s3 s2 H3 H2 s3' s2'. subst s3' s2'. split.
  - pose proof (sdl3_play_empty w s3 H3) as Hplay.
    pose proof (sdl3_seek_unbound w t s3 (or_intror H3)) as Hseek.
    unfold SDL3.set_volume. cbn.
    destruct (SDL3.stream s3) as [a|] eqn:Es; cbn; rewrite ?Es;
      repeat match goal with |- _ /\ _ => split end;
      first [ reflexivity | exact Hplay | exact Hseek ].
  - unfold SDL2.set_volume.
    repeat match goal with |- _ /\ _ => split end; try reflexivity.
    + now apply sdl2_play_empty.
    + apply sdl2_seek_unbound. now right.
Qed.

Lemma C8_no_buffer_calls_witness :
  let s3' := SDL3.set_volume half sdl3_ready in
  let s2' := SDL2.set_volume half sdl2_ready in
  (SDL3.volume s3' = half
   /\ SDL3.audioBuffer s3' = SDL3.audioBuffer sdl3_ready
   /\ SDL3.isPlaying s3' = SDL3.isPlaying sdl3_ready
   /\ SDL3.sampleRate s3' = SDL3.sampleRate sdl3_ready
   /\ SDL3.channels s3' = SDL3.channels sdl3_ready
   /\ SDL3.playHead s3' = SDL3.playHead sdl3_ready
   /\ SDL3.deviceId s3' = SDL3.deviceId sdl3_ready
   /\ SDL3.devicePaused s3' = SDL3.devicePaused sdl3_ready
   /\ option_map SDL3.st_queue (SDL3.stream s3')
      = option_map SDL3.st_queue (SDL3.stream sdl3_ready)
   /\ option_map SDL3.st_gain (SDL3.stream s3')
      = option_map (fun _ => half) (SDL3.stream sdl3_ready)
   /\ SDL3.play 32 sdl3_ready = sdl3_ready
   /\ SDL3.seek 32 one sdl3_ready = Some sdl3_ready)
  /\ (SDL2.volume s2' = half
      /\ SDL2.stream s2' = SDL2.stream sdl2_ready
      /\ SDL2.audioBuffer s2' = SDL2.audioBuffer sdl2_ready
      /\ SDL2.isPlaying s2' = SDL2.isPlaying sdl2_ready
      /\ SDL2.sampleRate s2' = SDL2.sampleRate sdl2_ready
      /\ SDL2.channels s2' = SDL2.channels sdl2_ready
      /\ SDL2.playHead s2' = SDL2.playHead sdl2_ready
      /\ SDL2.deviceId s2' = SDL2.deviceId sdl2_ready
      /\ SDL2.deviceQueued s2' = SDL2.deviceQueued sdl2_ready
      /\ SDL2.devicePaused s2' = SDL2.devicePaused sdl2_ready
      /\ SDL2.play 32 ideal_converted_size sdl2_ready = sdl2_ready
      /\ SDL2.seek 32 ideal_converted_size one sdl2_ready = Some sdl2_ready).
Proof.
  apply (C8_no_buffer_calls 32 ideal_converted_size half one
           sdl3_ready sdl2_ready).
  - reflexivity.
  - reflexivity.
Defined.

(** ** Seek target *)

(** The index [seek] computes is inside the buffer. *)
Lemma sdl3_seek_index_bounds (w : Z) (t : F32.t) (s : SDL3.PlayerState) (i : Z) :
  0 <= w -> SDL3.seek_index w t s = Some i -> 0 <= i <= SDL3.size s.
Proof.
  intros Hw. unfold SDL3.seek_index. cbv zeta.
  destruct (F32.to_size _ _) as [n|]; [|discriminate].
  destruct (_ =? 0); [discriminate|].
  pose proof (sdl3_size_nonneg s).
  match goal with |- context [SDL3.size s <=? ?c] =>
    match c with CInt.wrap w ?x => pose proof (wrap_range w x Hw) end;
    destruct (Z.leb_spec (SDL3.size s) c) end;
    intros [= <-]; lia.
Qed.

(** On a buffer of whole frames it is a multiple of the channel count, the
    wrap-around of the product notwithstanding. *)
Lemma sdl3_seek_index_aligned (w : Z) (t : F32.t) (s : SDL3.PlayerState) (i : Z) :
  0 <= w ->
  SDL3.seek_index w t s = Some i ->
  SDL3.size s mod CInt.wrap w (SDL3.channels s) = 0 ->
  i mod CInt.wrap w (SDL3.channels s) = 0.
Proof.
  intros Hw. unfold SDL3.seek_index. cbv zeta.
  destruct (F32.to_size _ _) as [n|]; [|discriminate].
  set (ch := CInt.wrap w (SDL3.channels s)).
  destruct (Z.eqb_spec ch 0) as [|Hch]; [discriminate|].
  set (x := CInt.wrap w (n * ch)).
  assert (Hx : 0 <= x < 2 ^ w) by (apply wrap_range; exact Hw).
  assert (Hc : 0 < ch) by (pose proof (wrap_range w (SDL3.channels s) Hw); fold ch in H; lia).
  pose proof (Z.mod_pos_bound x ch Hc) as Hm.
  pose proof (Z.mod_le x ch (proj1 Hx) Hc) as Hle.
  rewrite (wrap_small w (x - x mod ch)) by lia.
  destruct (SDL3.size s <=? x - x mod ch); intros [= <-] Hsz; [exact Hsz|].
  rewrite Zminus_mod, Z.mod_mod, Z.sub_diag by lia. apply Z.mod_0_l; lia.
Qed.

(** When the product does not overflow [size_t], the index is
    [floor(time * sampleRate) * channels] clamped to the length, the product
    [time * sampleRate] being the [float] one. *)
Lemma sdl3_seek_index_no_overflow (w : Z) (t : F32.t) (s : SDL3.PlayerState) (n : Z) :
  F32.to_size w (F32.mul t (F32.of_Z (SDL3.sampleRate s))) = Some n ->
  0 < SDL3.channels s < 2 ^ w ->
  n * SDL3.channels s < 2 ^ w ->
  SDL3.seek_index w t s = Some (Z.min (n * SDL3.channels s) (SDL3.size s)).
Proof.
  intros Hn Hch Hov. unfold SDL3.seek_index. cbv zeta. rewrite Hn.
  assert (Hn0 : 0 <= n).
  { unfold F32.to_size in Hn. destruct (F32.trunc _) as [v|]; [|discriminate].
    destruct ((0 <=? v) && (v <? 2 ^ w)) eqn:E; [|discriminate].
    injection Hn as <-. apply andb_prop in E. now apply Z.leb_le. }
  rewrite (wrap_small w (SDL3.channels s)) by lia.
  destruct (Z.eqb_spec (SDL3.channels s) 0); [lia|].
  rewrite (wrap_small w (n * SDL3.channels s)) by nia.
  rewrite Z.mod_mul by lia. rewrite Z.sub_0_r.
  rewrite (wrap_small w (n * SDL3.channels s)) by nia.
  destruct (Z.leb_spec (SDL3.size s) (n * SDL3.channels s)); f_equal; lia.
Qed.

(** What [seek] changes on a bound, loaded engine. *)
Lemma sdl3_seek_playHead (w : Z) (t : F32.t) (s s' : SDL3.PlayerState) :
  SDL3.seek w t s = Some s' ->
  SDL3.stream s <> None ->
  SDL3.audioBuffer s <> [] ->
  SDL3.seek_index w t s = Some (SDL3.playHead s')
  /\ SDL3.audioBuffer s' = SDL3.audioBuffer s
  /\ SDL3.channels s' = SDL3.channels s
  /\ SDL3.sampleRate s' = SDL3.sampleRate s
  /\ SDL3.isPlaying s' = SDL3.isPlaying s.
Proof.
  intros Hseek Hst Hb. unfold SDL3.seek in Hseek.
  destruct (SDL3.stream s) as [st|]; [|congruence].
  destruct (Z.eqb_spec (SDL3.size s) 0) as [E|_].
  { unfold SDL3.size in E. destruct (SDL3.audioBuffer s); [congruence|].
    cbn [length] in E. lia. }
  destruct (SDL3.seek_index w t s) as [i|]; [|discriminate].
  cbv zeta in Hseek. cbn in Hseek.
  destruct (SDL3.isPlaying s) eqn:Ep; [destruct (0 <? _)|];
    injection Hseek as <-; cbn; rewrite ?Ep; now repeat split.
Qed.

(** [seek] keeps the play-head invariant on a buffer of whole frames. *)
Lemma sdl3_seek_frame_aligned (w : Z) (t : F32.t) (s s' : SDL3.PlayerState) :
  0 <= w ->
  SDL3.size s mod CInt.wrap w (SDL3.channels s) = 0 ->
  SDL3.frame_aligned w s ->
  SDL3.seek w t s = Some s' ->
  SDL3.frame_aligned w s'.
Proof.
  intros Hw Hsz Hinv Hseek.
  destruct (SDL3.stream s) as [st|] eqn:Es.
  2:{ unfold SDL3.seek in Hseek. rewrite Es in Hseek. now injection Hseek as <-. }
  destruct (SDL3.audioBuffer s) as [|x l] eqn:Eb.
  { rewrite sdl3_seek_unbound in Hseek by now right.
    now injection Hseek as <-. }
  destruct (sdl3_seek_playHead w t s s' Hseek) as (Hi & Hb & Hc & _).
  { congruence. }
  { congruence. }
  unfold SDL3.frame_aligned, SDL3.size. rewrite Hb, Hc. split.
  - exact (sdl3_seek_index_bounds w t s _ Hw Hi).
  - exact (sdl3_seek_index_aligned w t s _ Hw Hi Hsz).
Qed.

(** The other operations keep it as well: [stop] and a successful load
    put the play-head at 0, the rest do not move it. *)
Lemma sdl3_frame_aligned_kept (w : Z) (s : SDL3.PlayerState) :
  0 <= w ->
  SDL3.frame_aligned w s ->
  SDL3.frame_aligned w (SDL3.play w s)
  /\ SDL3.frame_aligned w (SDL3.pause_audio s)
  /\ SDL3.frame_aligned w (SDL3.resume_audio s)
  /\ SDL3.frame_aligned w (SDL3.stop s)
  /\ (forall vol, SDL3.frame_aligned w (SDL3.set_volume vol s))
  /\ (forall env data ch sr,
        SDL3.assign_result env = AssignOk ->
        SDL3.frame_aligned w (SDL3.set_audio_data env data ch sr s)).
Proof.
  intros Hw Hinv.
  pose proof (sdl3_size_nonneg s) as H0.
  repeat match goal with |- _ /\ _ => split end;
    unfold SDL3.frame_aligned, SDL3.size in *.
  - unfold SDL3.play.
    destruct (SDL3.stream s); [|exact Hinv].
    destruct (_ =? 0); [exact Hinv|].
    destruct (SDL3.isPlaying s); [exact Hinv|].
    destruct (_ && _); exact Hinv.
  - unfold SDL3.pause_audio. destruct (negb _); exact Hinv.
  - unfold SDL3.resume_audio. destruct (SDL3.isPlaying s); exact Hinv.
  - unfold SDL3.stop. destruct (SDL3.stream s); [cbn|exact Hinv].
    rewrite ?Zmod_0_l. lia.
  - intros vol. unfold SDL3.set_volume. cbn.
    destruct (SDL3.stream s); exact Hinv.
  - intros env data ch sr Hok. unfold SDL3.set_audio_data. rewrite Hok.
    destruct (SDL3.stream s), (SDL3.create_stream_ok env); cbn;
      rewrite ?Zmod_0_l; lia.
Qed.

(** C4 (the code departs from the claim).  The product
    [(size_t)(time * sampleRate) * channels] is formed in [size_t] and wraps
    before the clamp sees it.  On a one-second stereo track at 8000 Hz
    (16000 samples), with a 32-bit [size_t], [seek(268436.0)] leaves
    [playHead = 8704] instead of 16000; with a 64-bit [size_t] a seek to
    about 1.15e15 s leaves [playHead = 0].  The SDL2 engine computes the
    index the same way. *)
Theorem C4_seek_far_beyond_end_wraps :
  SDL3.size sdl3_silence = 16000
  /\ F32.to_size 32 (F32.mul far32 (F32.of_Z 8000)) = Some (2 ^ 31 + 4352)
  /\ option_map SDL3.playHead (SDL3.seek 32 far32 sdl3_silence) = Some 8704
  /\ F32.to_size 64 (F32.mul far64 (F32.of_Z 8000)) = Some (2 ^ 63)
  /\ option_map SDL3.playHead (SDL3.seek 64 far64 sdl3_silence) = Some 0
  /\ option_map SDL2.playHead
       (SDL2.seek 32 ideal_converted_size far32 sdl2_silence) = Some 8704.
Proof.
  repeat split; vm_compute; reflexivity.
Qed.

(** ** Reported time *)

(** The play-head cancels out of the index [get_current_time] rebuilds: it
    is the buffer size minus the pending samples, modulo [2^size_bits], then
    clamped above. *)
Lemma sdl3_index_formula (w q : Z) (s : SDL3.PlayerState) :
  SDL3.current_sample_index w q s =
  let c := CInt.wrap w (SDL3.size s - CInt.wrap w q / CInt.sizeof_float) in
  if SDL3.size s <? c then SDL3.size s else c.
Proof.
  unfold SDL3.current_sample_index. cbv zeta.
  set (k := CInt.wrap w q / CInt.sizeof_float).
  rewrite wrap_add_idem.
  replace (SDL3.playHead s + (CInt.wrap w (SDL3.size s - SDL3.playHead s) - k))
    with (SDL3.playHead s - k + CInt.wrap w (SDL3.size s - SDL3.playHead s))
    by lia.
  rewrite wrap_add_idem.
  replace (SDL3.playHead s - k + (SDL3.size s - SDL3.playHead s))
    with (SDL3.size s - k) by lia.
  reflexivity.
Qed.

(** As long as the stream reports no more than the buffer holds, nothing
    wraps. *)
Lemma sdl3_index_in_range (w q : Z) (s : SDL3.PlayerState) :
  0 <= q < 2 ^ w ->
  q / CInt.sizeof_float <= SDL3.size s < 2 ^ w ->
  SDL3.current_sample_index w q s = SDL3.size s - q / CInt.sizeof_float.
Proof.
  intros Hq Hs. rewrite sdl3_index_formula. cbv zeta.
  rewrite (wrap_small w q Hq).
  assert (0 <= q / CInt.sizeof_float)
    by (apply Z.div_pos; unfold CInt.sizeof_float; lia).
  rewrite wrap_small by lia.
  destruct (Z.ltb_spec (SDL3.size s) (SDL3.size s - q / CInt.sizeof_float)); lia.
Qed.

(** When it reports more, the subtraction wraps and the clamp answers the
    end of the buffer. *)
Lemma sdl3_index_excess (w q : Z) (s : SDL3.PlayerState) :
  0 <= w ->
  0 <= q < 2 ^ w ->
  SDL3.size s < q / CInt.sizeof_float ->
  SDL3.current_sample_index w q s = SDL3.size s.
Proof.
  intros Hw Hq Hs. rewrite sdl3_index_formula. cbv zeta.
  rewrite (wrap_small w q Hq).
  pose proof (sdl3_size_nonneg s) as H0.
  assert (Hk : q / CInt.sizeof_float <= q).
  { unfold CInt.sizeof_float. apply Z.div_le_upper_bound; lia. }
  set (k := q / CInt.sizeof_float) in *.
  assert (Hc : CInt.wrap w (SDL3.size s - k) = SDL3.size s - k + 2 ^ w).
  { unfold CInt.wrap.
    rewrite <- (Z.mod_add (SDL3.size s - k) 1 (2 ^ w)) by lia.
    rewrite Z.mul_1_l. apply Z.mod_small. lia. }
  rewrite Hc.
  destruct (Z.ltb_spec (SDL3.size s) (SDL3.size s - k + 2 ^ w)); lia.
Qed.

(** The clamp: the index never leaves the buffer. *)
Lemma sdl3_index_bounds (w q : Z) (s : SDL3.PlayerState) :
  0 <= w -> 0 <= SDL3.current_sample_index w q s <= SDL3.size s.
Proof.
  intros Hw. rewrite sdl3_index_formula. cbv zeta.
  pose proof (sdl3_size_nonneg s).
  match goal with |- context [SDL3.size s <? ?c] =>
    pose proof (wrap_range w (SDL3.size s - CInt.wrap w q / CInt.sizeof_float) Hw);
    destruct (Z.ltb_spec (SDL3.size s) c) end; lia.
Qed.

(** In that range the index is antitone in the pending amount. *)
Lemma sdl3_index_antitone (w q1 q2 : Z) (s : SDL3.PlayerState) :
  0 <= q1 <= q2 -> q2 < 2 ^ w ->
  q2 / CInt.sizeof_float <= SDL3.size s < 2 ^ w ->
  SDL3.current_sample_index w q2 s <= SDL3.current_sample_index w q1 s.
Proof.
  intros Hq H2 Hs.
  assert (q1 / CInt.sizeof_float <= q2 / CInt.sizeof_float)
    by (apply Z.div_le_mono; unfold CInt.sizeof_float; lia).
  rewrite !sdl3_index_in_range by lia. lia.
Qed.

(** C3 (the code departs from the claim).  In the SDL3 engine
    [totalSamplesToPlay - samplesQueued] is an unsigned subtraction: when the
    stream reports more pending samples than the buffer holds it wraps, and
    the clamp sends the result to the end of the track.  Playing [track16]
    (the engine [play] leaves, but for the pending amount) with 20 samples
    pending, the time is 4.0; once four of them are consumed it is 0.0.
    Time went down while the pipeline drained, for either width of
    [size_t]. *)
Theorem C3_time_falls_as_excess_pending_drains :
  sdl3_pending track16 = sdl3_playing 32
  /\ SDL3.isPlaying (sdl3_pending pending20) = true
  /\ option_map fst (SDL3.get_current_time 32 (sdl3_pending pending20)) = Some four
  /\ option_map fst
       (SDL3.get_current_time 32 (SDL3.consumed 4 (sdl3_pending pending20)))
     = Some F32.zero
  /\ option_map fst (SDL3.get_current_time 64 (sdl3_pending pending20)) = Some four
  /\ option_map fst
       (SDL3.get_current_time 64 (SDL3.consumed 4 (sdl3_pending pending20)))
     = Some F32.zero
  /\ F32.ltb F32.zero four = true.
Proof.
  repeat split; vm_compute; reflexivity.
Qed.

(** The queue [seek] leaves when the engine is playing: the samples from
    the new play-head to the end of the buffer. *)
Lemma sdl3_seek_playing_queue (w : Z) (t : F32.t) (s s' : SDL3.PlayerState) :
  32 <= w ->
  SDL3.seek w t s = Some s' ->
  SDL3.stream s <> None ->
  SDL3.isPlaying s = true ->
  0 < SDL3.size s < 2 ^ 29 ->
  SDL3.seek_index w t s = Some (SDL3.playHead s')
  /\ SDL3.audioBuffer s' = SDL3.audioBuffer s
  /\ option_map SDL3.st_queue (SDL3.stream s')
     = Some (skipn (Z.to_nat (SDL3.playHead s')) (SDL3.audioBuffer s)).
Proof.
  intros Hw Hseek Hst Hp Hsz.
  unfold SDL3.seek in Hseek.
  destruct (SDL3.stream s) as [st|] eqn:Es; [|congruence].
  destruct (Z.eqb_spec (SDL3.size s) 0); [lia|].
  destruct (SDL3.seek_index w t s) as [i|] eqn:Ei; [|discriminate].
  pose proof (sdl3_seek_index_bounds w t s i ltac:(lia) Ei) as Hi.
  cbv zeta in Hseek. cbn in Hseek. rewrite Hp in Hseek.
  change (SDL3.size (SDL3.set_stream _ (SDL3.set_playHead i s)))
    with (SDL3.size s) in Hseek.
  assert (H29 : 2 ^ 29 < 2 ^ w) by (apply Z.pow_lt_mono_r; lia).
  assert (H31 : 2 ^ 31 < 2 ^ w) by (apply Z.pow_lt_mono_r; lia).
  rewrite (wrap_small w (SDL3.size s - i)) in Hseek by lia.
  destruct (Z.ltb_spec 0 (SDL3.size s - i)) as [Hr|Hr];
    injection Hseek as <-; cbn.
  - split; [reflexivity|]. split; [reflexivity|].
    unfold SDL3.SDL_PutAudioStreamData; cbn.
    change (2 ^ 29) with 536870912 in *. change (2 ^ 31) with 2147483648 in *.
    unfold CInt.sizeof_float.
    rewrite (wrap_small w ((SDL3.size s - i) * 4)) by lia.
    rewrite to_int_small by (change (2 ^ 31) with 2147483648; lia).
    destruct (Z.ltb_spec ((SDL3.size s - i) * 4) 0); [lia|]. cbn.
    rewrite Z.div_mul by lia.
    f_equal. apply firstn_all2.
    rewrite length_skipn. unfold SDL3.size in *. lia.
  - split; [reflexivity|]. split; [reflexivity|].
    f_equal. assert (i = SDL3.size s) as -> by lia.
    unfold SDL3.size. rewrite Nat2Z.id. symmetry. apply skipn_all.
Qed.

(** Seek exactness while playing, on the sample index: with everything
    [seek] enqueued still pending, [get_current_time] reconstructs exactly
    the new play-head. *)
Lemma sdl3_seek_playing_index (w : Z) (t : F32.t) (s s' : SDL3.PlayerState) :
  32 <= w ->
  SDL3.seek w t s = Some s' ->
  SDL3.stream s <> None ->
  SDL3.isPlaying s = true ->
  0 < SDL3.size s < 2 ^ 29 ->
  exists st',
    SDL3.stream s' = Some st'
    /\ SDL3.current_sample_index w (SDL3.SDL_GetAudioStreamAvailable st') s'
       = SDL3.playHead s'.
Proof.
  intros Hw Hseek Hst Hp Hsz.
  destruct (sdl3_seek_playing_queue w t s s' Hw Hseek Hst Hp Hsz)
    as (Hi & Hb & Hq).
  pose proof (sdl3_seek_index_bounds w t s _ ltac:(lia) Hi) as Hr.
  destruct (SDL3.stream s') as [st'|] eqn:Es'; [|discriminate].
  exists st'. split; [reflexivity|].
  injection Hq as Hq.
  assert (H29 : 2 ^ 29 < 2 ^ w) by (apply Z.pow_lt_mono_r; lia).
  assert (Hsz' : SDL3.size s' = SDL3.size s) by (unfold SDL3.size; now rewrite Hb).
  assert (Hav : SDL3.SDL_GetAudioStreamAvailable st'
                = 4 * (SDL3.size s - SDL3.playHead s')).
  { unfold SDL3.SDL_GetAudioStreamAvailable, CInt.sizeof_float.
    rewrite Hq, length_skipn. unfold SDL3.size in *. lia. }
  rewrite Hav.
  assert (H31 : 2 ^ 31 < 2 ^ w) by (apply Z.pow_lt_mono_r; lia).
  change (2 ^ 29) with 536870912 in *. change (2 ^ 31) with 2147483648 in *.
  rewrite sdl3_index_in_range; unfold CInt.sizeof_float; rewrite ?Hsz'.
  - rewrite Z.mul_comm, Z.div_mul by lia. lia.
  - lia.
  - rewrite Z.mul_comm, Z.div_mul by lia. lia.
Qed.

Lemma sdl3_seek_index_channels (w : Z) (t : F32.t) (s : SDL3.PlayerState) (i : Z) :
  SDL3.seek_index w t s = Some i -> CInt.wrap w (SDL3.channels s) <> 0.
Proof.
  unfold SDL3.seek_index. cbv zeta.
  destruct (F32.to_size _ _); [|discriminate].
  now destruct (Z.eqb_spec (CInt.wrap w (SDL3.channels s)) 0).
Qed.

(** Seek exactness while playing: right after [seek], [get_current_time]
    is the new play-head in frames over the sample rate. *)
Lemma sdl3_seek_playing_time (w : Z) (t : F32.t) (s s' : SDL3.PlayerState) :
  32 <= w ->
  SDL3.seek w t s = Some s' ->
  SDL3.stream s <> None ->
  SDL3.isPlaying s = true ->
  0 < SDL3.size s < 2 ^ 29 ->
  SDL3.get_current_time w s' =
  Some (F32.div
          (F32.of_Z (SDL3.playHead s' / CInt.wrap w (SDL3.channels s)))
          (F32.of_Z (SDL3.sampleRate s)),
        s').
Proof.
  intros Hw Hseek Hst Hp Hsz.
  destruct (sdl3_seek_playing_index w t s s' Hw Hseek Hst Hp Hsz)
    as (st' & Es' & Hidx).
  assert (Hb : SDL3.audioBuffer s <> []).
  { unfold SDL3.size in Hsz. destruct (SDL3.audioBuffer s); [cbn in Hsz; lia|].
    discriminate. }
  destruct (sdl3_seek_playHead w t s s' Hseek Hst Hb) as (Hi & Hbuf & Hc & Hr & _).
  pose proof (sdl3_seek_index_channels w t s _ Hi) as Hch.
  unfold SDL3.get_current_time. rewrite Es'.
  assert (Hsz' : SDL3.size s' = SDL3.size s) by (unfold SDL3.size; now rewrite Hbuf).
  rewrite Hsz'.
  destruct (Z.eqb_spec (SDL3.size s) 0); [lia|].
  cbv zeta. rewrite Hidx, Hc, Hr.
  now destruct (Z.eqb_spec (CInt.wrap w (SDL3.channels s)) 0).
Qed.

(** ... and when the target lies inside the buffer and nothing overflows,
    that is [floor(time * sampleRate) / sampleRate]: the target rounded
    down to a frame. *)
Lemma sdl3_seek_playing_exact (w : Z) (t : F32.t) (s s' : SDL3.PlayerState) (n : Z) :
  32 <= w ->
  SDL3.seek w t s = Some s' ->
  SDL3.stream s <> None ->
  SDL3.isPlaying s = true ->
  0 < SDL3.size s < 2 ^ 29 ->
  F32.to_size w (F32.mul t (F32.of_Z (SDL3.sampleRate s))) = Some n ->
  0 < SDL3.channels s < 2 ^ w ->
  n * SDL3.channels s <= SDL3.size s ->
  SDL3.playHead s' = n * SDL3.channels s
  /\ SDL3.get_current_time w s' =
     Some (F32.div (F32.of_Z n) (F32.of_Z (SDL3.sampleRate s)), s').
Proof.
  intros Hw Hseek Hst Hp Hsz Hn Hch Hin.
  assert (Hb : SDL3.audioBuffer s <> []).
  { unfold SDL3.size in Hsz. destruct (SDL3.audioBuffer s); [cbn in Hsz; lia|].
    discriminate. }
  destruct (sdl3_seek_playHead w t s s' Hseek Hst Hb) as (Hi & _).
  assert (H29 : 2 ^ 29 < 2 ^ w) by (apply Z.pow_lt_mono_r; lia).
  rewrite (sdl3_seek_index_no_overflow w t s n Hn Hch) in Hi by lia.
  injection Hi as Hi. rewrite Z.min_l in Hi by lia.
  split; [now symmetry|].
  rewrite (sdl3_seek_playing_time w t s s' Hw Hseek Hst Hp Hsz).
  rewrite <- Hi, wrap_small by lia.
  now rewrite Z.div_mul by lia.
Qed.

(** With nothing pending the index is the end of the buffer, wherever the
    play-head is. *)
Lemma sdl3_empty_pipeline_time (w : Z) (s : SDL3.PlayerState) (st : SDL3.AudioStream) :
  SDL3.stream s = Some st ->
  SDL3.st_queue st = [] ->
  0 < SDL3.size s < 2 ^ w ->
  CInt.wrap w (SDL3.channels s) <> 0 ->
  SDL3.get_current_time w s =
  Some (F32.div
          (F32.of_Z (SDL3.size s / CInt.wrap w (SDL3.channels s)))
          (F32.of_Z (SDL3.sampleRate s)),
        s).
Proof.
  intros Es Hq Hsz Hch.
  unfold SDL3.get_current_time. rewrite Es.
  destruct (Z.eqb_spec (SDL3.size s) 0); [lia|]. cbv zeta.
  unfold SDL3.SDL_GetAudioStreamAvailable. rewrite Hq. cbn [length].
  rewrite Z.mul_0_r.
  rewrite sdl3_index_in_range; unfold CInt.sizeof_float;
    rewrite ?Zdiv_0_l; try lia.
  rewrite Z.sub_0_r.
  now destruct (Z.eqb_spec (CInt.wrap w (SDL3.channels s)) 0).
Qed.

(** A paused [seek] leaves the pipeline empty: whatever the target, the
    time reported next is that of the end of the buffer. *)
Lemma sdl3_seek_paused_time (w : Z) (t : F32.t) (s s' : SDL3.PlayerState) :
  SDL3.seek w t s = Some s' ->
  SDL3.stream s <> None ->
  SDL3.isPlaying s = false ->
  0 < SDL3.size s < 2 ^ w ->
  SDL3.get_current_time w s' =
  Some (F32.div
          (F32.of_Z (SDL3.size s / CInt.wrap w (SDL3.channels s)))
          (F32.of_Z (SDL3.sampleRate s)),
        s').
Proof.
  intros Hseek Hst Hp Hsz.
  assert (Hb : SDL3.audioBuffer s <> []).
  { unfold SDL3.size in Hsz. destruct (SDL3.audioBuffer s); [cbn in Hsz; lia|].
    discriminate. }
  destruct (sdl3_seek_playHead w t s s' Hseek Hst Hb) as (Hi & Hbuf & Hc & Hr & _).
  pose proof (sdl3_seek_index_channels w t s _ Hi) as Hch.
  assert (Hsz' : SDL3.size s' = SDL3.size s) by (unfold SDL3.size; now rewrite Hbuf).
  unfold SDL3.seek in Hseek.
  destruct (SDL3.stream s) as [st|]; [|congruence].
  destruct (Z.eqb_spec (SDL3.size s) 0); [lia|].
  destruct (SDL3.seek_index w t s) as [i|]; [|discriminate].
  cbv zeta in Hseek. cbn in Hseek. rewrite Hp in Hseek.
  rewrite <- Hsz', <- Hc, <- Hr.
  apply (sdl3_empty_pipeline_time w s' (SDL3.SDL_ClearAudioStream st)).
  - now injection Hseek as <-.
  - reflexivity.
  - lia.
  - now rewrite Hc.
Qed.

(** C1 (the code departs from the claim).  Seek exactness fails when the
    engine is paused: [seek] then clears the pipeline and enqueues nothing,
    and [get_current_time] reads an empty pipeline as "everything from the
    play-head on has been played".  On the four-second track, paused,
    [seek(1.0)] sets [playHead = 4] (frame 2) and the next
    [get_current_time] is 4.0, the total duration, in both engines; one
    frame lasts 0.5 s, so 4.0 is not within a frame of 1.0. *)
Theorem C1_seek_while_paused_reports_end :
  SDL3.isPlaying sdl3_loaded = false
  /\ option_map SDL3.playHead (SDL3.seek 32 one sdl3_loaded) = Some 4
  /\ match SDL3.seek 32 one sdl3_loaded with
     | Some s' => option_map fst (SDL3.get_current_time 32 s')
     | None => None
     end = Some four
  /\ SDL2.isPlaying sdl2_loaded = false
  /\ option_map SDL2.playHead
       (SDL2.seek 32 ideal_converted_size one sdl2_loaded) = Some 4
  /\ match SDL2.seek 32 ideal_converted_size one sdl2_loaded with
     | Some s' => option_map fst (SDL2.get_current_time 32 s')
     | None => None
     end = Some four
  /\ F32.ltb (F32.add one half) four = true.
Proof.
  repeat split; vm_compute; reflexivity.
Qed.

(** C2 (the code departs from the claim).  After a successful load of a
    non-empty buffer [isPlaying] is false and [playHead] is 0, but
    [get_current_time] does not return 0: the pipeline is empty, so both
    engines report the end of the track, 4.0 s here. *)
Theorem C2_load_reports_end :
  SDL3.isPlaying sdl3_loaded = false
  /\ SDL3.playHead sdl3_loaded = 0
  /\ SDL3.get_current_time 32 sdl3_loaded = Some (four, sdl3_loaded)
  /\ SDL2.isPlaying sdl2_loaded = false
  /\ SDL2.playHead sdl2_loaded = 0
  /\ SDL2.get_current_time 32 sdl2_loaded = Some (four, sdl2_loaded)
  /\ F32.eqb four F32.zero = false.
Proof.
  repeat split; vm_compute; reflexivity.
Qed.

(** ** Resume *)

(** The SDL2 [resume_audio] is [play]. *)
Lemma sdl2_resume_is_play (w : Z) conv (s : SDL2.PlayerState) :
  SDL2.resume_audio w conv s = SDL2.play w conv s.
Proof.
  unfold SDL2.resume_audio.
  destruct (SDL2.isPlaying s) eqn:Hp; [|reflexivity].
  symmetry. now apply sdl2_play_playing.
Qed.

(** C7 (the code departs from the claim).  The SDL3 [resume_audio] sets the
    flag and resumes the device but never enqueues: on the freshly loaded,
    paused engine, whose pipeline is empty and whose play-head is before the
    end, [play] enqueues the sixteen samples and [resume_audio] leaves the
    pipeline empty. *)
Theorem C7_sdl3_resume_skips_enqueue :
  SDL3.isPlaying sdl3_loaded = false
  /\ option_map SDL3.st_queue (SDL3.stream sdl3_loaded) = Some []
  /\ (SDL3.playHead sdl3_loaded <? SDL3.size sdl3_loaded) = true
  /\ option_map SDL3.st_queue (SDL3.stream (SDL3.play 32 sdl3_loaded))
     = Some track16
  /\ option_map SDL3.st_queue (SDL3.stream (SDL3.resume_audio sdl3_loaded))
     = Some []
  /\ SDL3.isPlaying (SDL3.resume_audio sdl3_loaded) = true
  /\ SDL3.resume_audio sdl3_loaded <> SDL3.play 32 sdl3_loaded.
Proof.
  repeat split; try (vm_compute; reflexivity).
  intro H.
  apply (f_equal (fun s => option_map SDL3.st_queue (SDL3.stream s))) in H.
  vm_compute in H. discriminate H.
Qed.

(** * Further properties of the engines *)

(** ** The play-head invariant along any sequence of calls *)

(** The invariant passes to any state with the same play-head, buffer and
    channel count that is bound only if the first one was. *)
Lemma sdl3_invariant_transfer (w : Z) (s s' : SDL3.PlayerState) :
  SDL3.playHead s' = SDL3.playHead s ->
  SDL3.audioBuffer s' = SDL3.audioBuffer s ->
  SDL3.channels s' = SDL3.channels s ->
  (SDL3.stream s = None -> SDL3.stream s' = None) ->
  (SDL3.stream s <> None ->
   SDL3.frame_aligned w s
   /\ SDL3.size s mod CInt.wrap w (SDL3.channels s) = 0) ->
  SDL3.stream s' <> None ->
  SDL3.frame_aligned w s'
  /\ SDL3.size s' mod CInt.wrap w (SDL3.channels s') = 0.
Proof.
  intros Hp Hb Hc Hn Hinv Hs'.
  unfold SDL3.frame_aligned, SDL3.size in *.
  rewrite Hp, Hb, Hc. apply Hinv. intros H. now apply Hs', Hn.
Qed.

(** What [play] leaves alone. *)
Lemma sdl3_play_frame (w : Z) (s : SDL3.PlayerState) :
  SDL3.playHead (SDL3.play w s) = SDL3.playHead s
  /\ SDL3.audioBuffer (SDL3.play w s) = SDL3.audioBuffer s
  /\ SDL3.channels (SDL3.play w s) = SDL3.channels s
  /\ SDL3.sampleRate (SDL3.play w s) = SDL3.sampleRate s
  /\ SDL3.volume (SDL3.play w s) = SDL3.volume s
  /\ (SDL3.stream s = None -> SDL3.stream (SDL3.play w s) = None).
Proof.
  unfold SDL3.play.
  destruct (SDL3.stream s) eqn:Es; [|now rewrite Es].
  destruct (_ =? 0); [now rewrite Es|].
  destruct (SDL3.isPlaying s); [now rewrite Es|].
  destruct (_ && _); cbn; repeat split; congruence.
Qed.

(** What every state with a bound stream satisfies. *)
Lemma sdl3_step_invariant (w : Z) (c : SDL3.call) (s s' : SDL3.PlayerState) :
  0 <= w ->
  SDL3.whole_frames w c ->
  (SDL3.stream s <> None ->
   SDL3.frame_aligned w s
   /\ SDL3.size s mod CInt.wrap w (SDL3.channels s) = 0) ->
  SDL3.step w c s = Some s' ->
  SDL3.stream s' <> None ->
  SDL3.frame_aligned w s'
  /\ SDL3.size s' mod CInt.wrap w (SDL3.channels s') = 0.
Proof.
  intros Hw Hc Hinv Hstep.
  destruct c; cbn [SDL3.step] in Hstep.
  - (* init_audio *)
    injection Hstep as <-. unfold SDL3.init_audio.
    destruct (negb sdl_ok); [exact Hinv|].
    destruct (dev =? 0); exact Hinv.
  - (* set_audio_data *)
    injection Hstep as <-. cbn in Hc. clear Hinv.
    unfold SDL3.set_audio_data.
    destruct (SDL3.assign_result env).
    + destruct (SDL3.stream s) eqn:Es, (SDL3.create_stream_ok env); cbn;
        rewrite ?Es; intros Hb; try congruence;
        unfold SDL3.frame_aligned, SDL3.size; cbn;
        rewrite ?Zmod_0_l; repeat split; try lia; exact Hc.
    + destruct (SDL3.stream s) eqn:Es; cbn; rewrite ?Es; congruence.
  - (* play *)
    injection Hstep as <-.
    destruct (sdl3_play_frame w s) as (Hp & Hb & Hch & _ & _ & Hn).
    now apply (sdl3_invariant_transfer w s).
  - (* pause_audio *)
    injection Hstep as <-. unfold SDL3.pause_audio.
    destruct (negb _); exact Hinv.
  - (* resume_audio *)
    injection Hstep as <-. unfold SDL3.resume_audio.
    destruct (SDL3.isPlaying s); exact Hinv.
  - (* stop *)
    injection Hstep as <-. unfold SDL3.stop.
    destruct (SDL3.stream s) eqn:Es; [|intros H; now contradiction H].
    intros _. destruct Hinv as [[Hr _] Hm]; [congruence|].
    unfold SDL3.frame_aligned, SDL3.size in *; cbn.
    rewrite ?Zmod_0_l. repeat split; try lia; exact Hm.
  - (* seek *)
    destruct (SDL3.stream s) eqn:Es.
    + destruct Hinv as [Ha Hm]; [congruence|]. intros _.
      assert (Hs : SDL3.stream s <> None) by congruence.
      split.
      * exact (sdl3_seek_frame_aligned w time s s' Hw Hm Ha Hstep).
      * destruct (SDL3.audioBuffer s) eqn:Eb.
        { rewrite sdl3_seek_unbound in Hstep by now right.
          injection Hstep as <-. exact Hm. }
        destruct (sdl3_seek_playHead w time s s' Hstep Hs) as (_ & Hb & Hch & _).
        { congruence. }
        unfold SDL3.size in *. now rewrite Hb, Hch.
    + rewrite sdl3_seek_unbound in Hstep by now left.
      injection Hstep as <-. intros H. now contradiction H.
  - (* get_current_time *)
    assert (s' = s) as ->; [|exact Hinv].
    unfold SDL3.get_current_time in Hstep.
    destruct (SDL3.stream s); [|now injection Hstep].
    destruct (_ =? 0); [now injection Hstep|].
    cbv zeta in Hstep. destruct (_ =? 0); [discriminate|].
    now injection Hstep.
  - (* set_volume *)
    injection Hstep as <-.
    apply (sdl3_invariant_transfer w s); try exact Hinv;
      unfold SDL3.set_volume; cbn;
      destruct (SDL3.stream s) eqn:Es; cbn; rewrite ?Es; congruence.
  - (* cleanup *)
    injection Hstep as <-. cbn. congruence.
  - (* the device consumes *)
    injection Hstep as <-.
    apply (sdl3_invariant_transfer w s); try exact Hinv;
      unfold SDL3.consumed;
      destruct (SDL3.stream s) eqn:Es; cbn; rewrite ?Es; congruence.
Qed.

Lemma sdl3_run_invariant (w : Z) (cs : list SDL3.call) :
  0 <= w ->
  Forall (SDL3.whole_frames w) cs ->
  forall s s',
    (SDL3.stream s <> None ->
     SDL3.frame_aligned w s
     /\ SDL3.size s mod CInt.wrap w (SDL3.channels s) = 0) ->
    SDL3.run w cs s = Some s' ->
    SDL3.stream s' <> None ->
    SDL3.frame_aligned w s'
    /\ SDL3.size s' mod CInt.wrap w (SDL3.channels s') = 0.
Proof.
  intros Hw Hcs. induction Hcs as [|c cs Hc _ IH]; intros s s' Hinv Hrun.
  - injection Hrun as <-. exact Hinv.
  - cbn [SDL3.run] in Hrun.
    destruct (SDL3.step w c s) as [s1|] eqn:Hstep; [|discriminate].
    apply (IH s1 s'); [|exact Hrun].
    exact (sdl3_step_invariant w c s s1 Hw Hc Hinv Hstep).
Qed.

(** X1.  Whatever the exported functions are called with, in whatever
    order, and however much the device consumes in between, as long as
    every load hands over whole frames: whenever a stream is bound the
    play-head lies inside the buffer and on a frame boundary. *)
Theorem X1_sdl3_play_head_stays_frame_aligned :
  forall (w : Z) (cs : list SDL3.call) (s : SDL3.PlayerState),
    0 <= w ->
    Forall (SDL3.whole_frames w) cs ->
    SDL3.run w cs SDL3.g_state0 = Some s ->
    SDL3.stream s <> None ->
    0 <= SDL3.playHead s <= SDL3.size s
    /\ SDL3.playHead s mod CInt.wrap w (SDL3.channels s) = 0.
Proof.
  intros w cs s Hw Hcs Hrun Hb.
  destruct (sdl3_run_invariant w cs Hw Hcs SDL3.g_state0 s) as [Ha _];
    [ intros H; now contradiction H | exact Hrun | exact Hb | exact Ha ].
Qed.

Lemma X1_sdl3_play_head_stays_frame_aligned_witness :
  match SDL3.run 32 session3 SDL3.g_state0 with
  | Some s =>
      SDL3.stream s <> None
      /\ 0 <= SDL3.playHead s <= SDL3.size s
      /\ SDL3.playHead s mod CInt.wrap 32 (SDL3.channels s) = 0
  | None => False
  end.
Proof.
  destruct (SDL3.run 32 session3 SDL3.g_state0) as [s|] eqn:E.
  - assert (Hb : SDL3.stream s <> None).
    { vm_compute in E. injection E as <-. discriminate. }
    split; [exact Hb|].
    apply (X1_sdl3_play_head_stays_frame_aligned 32 session3 s).
    + lia.
    + repeat constructor.
    + exact E.
    + exact Hb.
  - vm_compute in E. discriminate E.
Defined.

(** ** Seeking *)

(** X2.  On a bound, loaded engine, when neither the conversion of
    [time * sampleRate] to [size_t] nor its product with the channel count
    overflows, [seek] succeeds and leaves the play-head at
    [floor(time * sampleRate) * channels], clamped to the buffer length; the
    buffer and the playing flag are as before. *)
Theorem X2_sdl3_seek_sets_clamped_frame_index :
  forall (w : Z) (t : F32.t) (s : SDL3.PlayerState) (n : Z),
    SDL3.stream s <> None ->
    SDL3.audioBuffer s <> [] ->
    F32.to_size w (F32.mul t (F32.of_Z (SDL3.sampleRate s))) = Some n ->
    0 < SDL3.channels s < 2 ^ w ->
    n * SDL3.channels s < 2 ^ w ->
    exists s',
      SDL3.seek w t s = Some s'
      /\ SDL3.playHead s' = Z.min (n * SDL3.channels s) (SDL3.size s)
      /\ SDL3.audioBuffer s' = SDL3.audioBuffer s
      /\ SDL3.isPlaying s' = SDL3.isPlaying s.
Proof.
  intros w t s n Hs Hb Hn Hch Hov.
  pose proof (sdl3_seek_index_no_overflow w t s n Hn Hch Hov) as Hi.
  destruct (SDL3.seek w t s) as [s'|] eqn:E.
  - exists s'. split; [reflexivity|].
    destruct (sdl3_seek_playHead w t s s' E Hs Hb) as (Hi' & Hbuf & _ & _ & Hp).
    rewrite Hi in Hi'. injection Hi' as Hi'. now repeat split.
  - exfalso. unfold SDL3.seek in E. rewrite Hi in E.
    destruct (SDL3.stream s); [|discriminate].
    destruct (_ =? 0); [discriminate|].
    cbv zeta in E. destruct (SDL3.isPlaying _); [|discriminate].
    destruct (0 <? _); discriminate.
Qed.

Lemma X2_sdl3_seek_sets_clamped_frame_index_witness :
  exists s',
    SDL3.seek 32 one sdl3_loaded = Some s'
    /\ SDL3.playHead s' = Z.min (2 * SDL3.channels sdl3_loaded) (SDL3.size sdl3_loaded)
    /\ SDL3.audioBuffer s' = SDL3.audioBuffer sdl3_loaded
    /\ SDL3.isPlaying s' = SDL3.isPlaying sdl3_loaded.
Proof.
  apply (X2_sdl3_seek_sets_clamped_frame_index 32 one sdl3_loaded 2).
  - vm_compute. discriminate.
  - vm_compute. discriminate.
  - vm_compute. reflexivity.
  - vm_compute. split; reflexivity.
  - vm_compute. reflexivity.
Defined.

(** A paused [seek] leaves the stream empty. *)
Lemma sdl3_seek_paused_queue (w : Z) (t : F32.t) (s s' : SDL3.PlayerState) :
  SDL3.seek w t s = Some s' ->
  SDL3.stream s <> None ->
  SDL3.audioBuffer s <> [] ->
  SDL3.isPlaying s = false ->
  option_map SDL3.st_queue (SDL3.stream s') = Some [].
Proof.
  intros Hseek Hst Hb Hp. unfold SDL3.seek in Hseek.
  destruct (SDL3.stream s) as [st|]; [|congruence].
  destruct (Z.eqb_spec (SDL3.size s) 0) as [E|_].
  { unfold SDL3.size in E. destruct (SDL3.audioBuffer s); [congruence|].
    cbn [length] in E. lia. }
  destruct (SDL3.seek_index w t s) as [i|]; [|discriminate].
  cbv zeta in Hseek. cbn in Hseek. rewrite Hp in Hseek.
  now injection Hseek as <-.
Qed.

Lemma sdl3_size_pos_buffer (s : SDL3.PlayerState) :
  0 < SDL3.size s -> SDL3.audioBuffer s <> [].
Proof.
  unfold SDL3.size. destruct (SDL3.audioBuffer s); [cbn; lia | discriminate].
Qed.

(** X3.  After a [seek] nothing of what was pending before is left: the
    stream holds exactly the samples from the new play-head to the end of
    the buffer if the engine is playing, and nothing if it is paused. *)
Theorem X3_sdl3_seek_replaces_pending_data :
  forall (w : Z) (t : F32.t) (s s' : SDL3.PlayerState),
    32 <= w ->
    SDL3.stream s <> None ->
    0 < SDL3.size s < 2 ^ 29 ->
    SDL3.seek w t s = Some s' ->
    option_map SDL3.st_queue (SDL3.stream s')
    = Some (if SDL3.isPlaying s
            then skipn (Z.to_nat (SDL3.playHead s')) (SDL3.audioBuffer s)
            else []).
Proof.
  intros w t s s' Hw Hs Hsz Hseek.
  destruct (SDL3.isPlaying s) eqn:Hp.
  - now destruct (sdl3_seek_playing_queue w t s s' Hw Hseek Hs Hp Hsz)
      as (_ & _ & Hq).
  - apply (sdl3_seek_paused_queue w t s s' Hseek Hs); [|exact Hp].
    apply sdl3_size_pos_buffer. lia.
Qed.

Lemma X3_sdl3_seek_replaces_pending_data_witness :
  match SDL3.seek 32 one (sdl3_pending pending20) with
  | Some s' =>
      option_map SDL3.st_queue (SDL3.stream s')
      = Some (skipn (Z.to_nat (SDL3.playHead s')) track16)
  | None => False
  end.
Proof.
  destruct (SDL3.seek 32 one (sdl3_pending pending20)) as [s'|] eqn:E.
  - apply (X3_sdl3_seek_replaces_pending_data 32 one (sdl3_pending pending20) s').
    + lia.
    + vm_compute. discriminate.
    + vm_compute. split; reflexivity.
    + exact E.
  - vm_compute in E. discriminate E.
Defined.

Lemma sdl3_seek_index_ext (w : Z) (t : F32.t) (s s' : SDL3.PlayerState) :
  SDL3.sampleRate s' = SDL3.sampleRate s ->
  SDL3.channels s' = SDL3.channels s ->
  SDL3.audioBuffer s' = SDL3.audioBuffer s ->
  SDL3.seek_index w t s' = SDL3.seek_index w t s.
Proof.
  intros Hr Hc Hb. unfold SDL3.seek_index, SDL3.size.
  now rewrite Hr, Hc, Hb.
Qed.

(** X4.  A [seek] cancels the one before it: seeking to [t2] after a seek
    to [t1] gives the very state that seeking to [t2] directly gives. *)
Theorem X4_sdl3_seek_overrides_previous_seek :
  forall (w : Z) (t1 t2 : F32.t) (s s1 : SDL3.PlayerState),
    SDL3.seek w t1 s = Some s1 ->
    SDL3.seek w t2 s1 = SDL3.seek w t2 s.
Proof.
  intros w t1 t2 s s1 H1.
  destruct s as [st0 buf ip vol sr ch ph dev dp].
  unfold SDL3.seek, SDL3.size in H1 |- *.
  cbn -[SDL3.seek_index Z.of_nat CInt.wrap CInt.to_int Z.mul Z.sub Z.ltb Z.eqb] in H1.
  destruct st0 as [st|]; [|now injection H1 as <-].
  destruct (Z.of_nat (length buf) =? 0) eqn:E0.
  { injection H1 as <-.
    cbn -[SDL3.seek_index Z.of_nat CInt.wrap CInt.to_int Z.mul Z.sub Z.ltb Z.eqb].
    now rewrite E0. }
  destruct (SDL3.seek_index w t1 _) as [i1|]; [|discriminate].
  destruct ip; [destruct (0 <? _)|]; injection H1 as <-;
    cbn -[SDL3.seek_index Z.of_nat CInt.wrap CInt.to_int Z.mul Z.sub Z.ltb Z.eqb];
    rewrite E0;
    match goal with
    | |- match SDL3.seek_index w t2 ?a with _ => _ end
         = match SDL3.seek_index w t2 ?b with _ => _ end =>
        rewrite (sdl3_seek_index_ext w t2 b a) by reflexivity
    end;
    destruct (SDL3.seek_index w t2 _) as [i2|]; try reflexivity;
    unfold SDL3.SDL_PutAudioStreamData;
    repeat match goal with
           | |- context [if ?c then _ else _] => destruct c
           end; reflexivity.
Qed.

Lemma X4_sdl3_seek_overrides_previous_seek_witness :
  match SDL3.seek 32 one (sdl3_playing 32) with
  | Some s1 => SDL3.seek 32 half s1 = SDL3.seek 32 half (sdl3_playing 32)
  | None => False
  end.
Proof.
  destruct (SDL3.seek 32 one (sdl3_playing 32)) as [s1|] eqn:E.
  - exact (X4_sdl3_seek_overrides_previous_seek 32 one half (sdl3_playing 32) s1 E).
  - vm_compute in E. discriminate E.
Defined.

(** ** The reported position *)

(** The time reported when the stream reports the bytes of [k] samples,
    [k] no more than the buffer. *)
Lemma sdl3_time_of_report (w : Z) (s : SDL3.PlayerState) (st : SDL3.AudioStream) (k : Z) :
  32 <= w ->
  SDL3.stream s = Some st ->
  SDL3.SDL_GetAudioStreamAvailable st = CInt.sizeof_float * k ->
  0 <= k <= SDL3.size s ->
  0 < SDL3.size s < 2 ^ 29 ->
  CInt.wrap w (SDL3.channels s) <> 0 ->
  SDL3.get_current_time w s =
  Some (F32.div
          (F32.of_Z ((SDL3.size s - k) / CInt.wrap w (SDL3.channels s)))
          (F32.of_Z (SDL3.sampleRate s)),
        s).
Proof.
  intros Hw Es Hk Hle Hsz Hch.
  unfold SDL3.get_current_time. rewrite Es.
  destruct (Z.eqb_spec (SDL3.size s) 0); [lia|]. cbv zeta.
  destruct (Z.eqb_spec (CInt.wrap w (SDL3.channels s)) 0); [contradiction|].
  rewrite Hk.
  assert (H31 : 2 ^ 31 < 2 ^ w) by (apply Z.pow_lt_mono_r; lia).
  change (2 ^ 29) with 536870912 in *. change (2 ^ 31) with 2147483648 in *.
  rewrite sdl3_index_in_range; unfold CInt.sizeof_float;
    rewrite ?(Z.mul_comm 4 k), ?Z.div_mul by lia; try lia.
  reflexivity.
Qed.

(** X5.  Whenever the stream reports [sizeof(float)] bytes for each of the
    [size - playHead - n] samples of the segment from the play-head on that
    are still pending, [n] of them consumed (what a stream reports whose
    output has the track's format), the reported time is that of sample
    [playHead + n]: the position has advanced by exactly what was
    consumed. *)
Theorem X5_sdl3_time_advances_with_consumption :
  forall (w : Z) (s : SDL3.PlayerState) (st : SDL3.AudioStream) (n : Z),
    32 <= w ->
    SDL3.stream s = Some st ->
    SDL3.SDL_GetAudioStreamAvailable st
    = CInt.sizeof_float * (SDL3.size s - SDL3.playHead s - n) ->
    0 <= SDL3.playHead s ->
    0 <= n <= SDL3.size s - SDL3.playHead s ->
    0 < SDL3.size s < 2 ^ 29 ->
    CInt.wrap w (SDL3.channels s) <> 0 ->
    SDL3.get_current_time w s =
    Some (F32.div
            (F32.of_Z ((SDL3.playHead s + n) / CInt.wrap w (SDL3.channels s)))
            (F32.of_Z (SDL3.sampleRate s)),
          s).
Proof.
  intros w s st n Hw Es Hq Hp Hn Hsz Hch.
  rewrite (sdl3_time_of_report w s st _ Hw Es Hq) by (try assumption; lia).
  replace (SDL3.size s - (SDL3.size s - SDL3.playHead s - n))
    with (SDL3.playHead s + n) by lia.
  reflexivity.
Qed.

Lemma X5_sdl3_time_advances_with_consumption_witness :
  SDL3.get_current_time 32 (SDL3.consumed 4 (sdl3_playing 32)) =
  Some (F32.div (F32.of_Z ((0 + 4) / 2)) (F32.of_Z 2),
        SDL3.consumed 4 (sdl3_playing 32)).
Proof.
  apply (X5_sdl3_time_advances_with_consumption 32
           (SDL3.consumed 4 (sdl3_playing 32))
           (SDL3.drain 4 (SDL3.mkStream 2 2 track16 one true)) 4).
  - lia.
  - reflexivity.
  - reflexivity.
  - vm_compute. discriminate.
  - vm_compute. split; discriminate.
  - vm_compute. split; reflexivity.
  - vm_compute. discriminate.
Defined.

(** What [play] does to the stream of a paused engine. *)
Lemma sdl3_play_queue (w : Z) (s : SDL3.PlayerState) (st : SDL3.AudioStream) :
  32 <= w ->
  SDL3.stream s = Some st ->
  SDL3.isPlaying s = false ->
  0 <= SDL3.playHead s ->
  0 < SDL3.size s < 2 ^ 29 ->
  SDL3.play w s =
  SDL3.set_stream
    (Some (SDL3.mkStream (SDL3.st_channels st) (SDL3.st_freq st)
             (match SDL3.st_queue st with
              | [] => skipn (Z.to_nat (SDL3.playHead s)) (SDL3.audioBuffer s)
              | _ :: _ => SDL3.st_queue st
              end)
             (SDL3.st_gain st) (SDL3.st_bound st)))
    (SDL3.set_devicePaused false (SDL3.set_isPlaying true s)).
Proof.
  intros Hw Es Hp Hph Hsz.
  unfold SDL3.play. rewrite Es, Hp.
  destruct (Z.eqb_spec (SDL3.size s) 0); [lia|]. cbv zeta.
  change (SDL3.size (SDL3.set_devicePaused false (SDL3.set_isPlaying true s)))
    with (SDL3.size s).
  change (SDL3.playHead (SDL3.set_devicePaused false (SDL3.set_isPlaying true s)))
    with (SDL3.playHead s).
  change (SDL3.audioBuffer (SDL3.set_devicePaused false (SDL3.set_isPlaying true s)))
    with (SDL3.audioBuffer s).
  unfold SDL3.SDL_GetAudioStreamAvailable.
  assert (H31 : 2 ^ 31 < 2 ^ w) by (apply Z.pow_lt_mono_r; lia).
  change (2 ^ 29) with 536870912 in *. change (2 ^ 31) with 2147483648 in *.
  destruct st as [c f q g b]. cbn [SDL3.st_queue SDL3.st_channels SDL3.st_freq
                                   SDL3.st_gain SDL3.st_bound].
  destruct q as [|x q].
  - cbn [length]. change (CInt.sizeof_float * Z.of_nat 0 =? 0) with true.
    cbn [andb].
    destruct (Z.ltb_spec (SDL3.playHead s) (SDL3.size s)).
    + unfold SDL3.SDL_PutAudioStreamData, CInt.sizeof_float. cbn [SDL3.st_queue
        SDL3.st_channels SDL3.st_freq SDL3.st_gain SDL3.st_bound app].
      rewrite (wrap_small w (SDL3.size s - SDL3.playHead s)) by lia.
      rewrite (wrap_small w ((SDL3.size s - SDL3.playHead s) * 4)) by lia.
      rewrite to_int_small by (change (2 ^ 31) with 2147483648; lia).
      destruct (Z.ltb_spec ((SDL3.size s - SDL3.playHead s) * 4) 0); [lia|].
      rewrite Z.div_mul by lia.
      rewrite firstn_all2; [reflexivity|].
      rewrite length_skipn. unfold SDL3.size in *. lia.
    + rewrite skipn_all2 by (unfold SDL3.size in *; lia).
      unfold SDL3.set_stream, SDL3.set_devicePaused, SDL3.set_isPlaying.
      cbn [SDL3.stream SDL3.audioBuffer SDL3.isPlaying SDL3.volume
           SDL3.sampleRate SDL3.channels SDL3.playHead SDL3.deviceId
           SDL3.devicePaused].
      now rewrite Es.
  - assert (E : (CInt.sizeof_float * Z.of_nat (length (x :: q)) =? 0) = false).
    { apply Z.eqb_neq. unfold CInt.sizeof_float. cbn [length]. lia. }
    rewrite E. cbn [andb].
    unfold SDL3.set_stream, SDL3.set_devicePaused, SDL3.set_isPlaying.
    cbn [SDL3.stream SDL3.audioBuffer SDL3.isPlaying SDL3.volume
         SDL3.sampleRate SDL3.channels SDL3.playHead SDL3.deviceId
         SDL3.devicePaused].
    now rewrite Es.
Qed.

(** X6.  [play] on a paused, bound, loaded engine sets the playing flag and
    resumes the device.  If data is still pending it is left as it is; if
    the stream is empty, the buffer from the play-head to its end is
    enqueued (nothing when the play-head is at the end). *)
Theorem X6_sdl3_play_enqueues_remaining_segment :
  forall (w : Z) (s : SDL3.PlayerState) (st : SDL3.AudioStream),
    32 <= w ->
    SDL3.stream s = Some st ->
    SDL3.isPlaying s = false ->
    0 <= SDL3.playHead s ->
    0 < SDL3.size s < 2 ^ 29 ->
    SDL3.isPlaying (SDL3.play w s) = true
    /\ SDL3.devicePaused (SDL3.play w s) = false
    /\ SDL3.playHead (SDL3.play w s) = SDL3.playHead s
    /\ option_map SDL3.st_queue (SDL3.stream (SDL3.play w s))
       = Some (match SDL3.st_queue st with
               | [] => skipn (Z.to_nat (SDL3.playHead s)) (SDL3.audioBuffer s)
               | _ :: _ => SDL3.st_queue st
               end).
Proof.
  intros w s st Hw Es Hp Hph Hsz.
  rewrite (sdl3_play_queue w s st Hw Es Hp Hph Hsz). cbn. now repeat split.
Qed.

Lemma X6_sdl3_play_enqueues_remaining_segment_witness :
  SDL3.isPlaying (SDL3.play 32 sdl3_loaded) = true
  /\ SDL3.devicePaused (SDL3.play 32 sdl3_loaded) = false
  /\ SDL3.playHead (SDL3.play 32 sdl3_loaded) = SDL3.playHead sdl3_loaded
  /\ option_map SDL3.st_queue (SDL3.stream (SDL3.play 32 sdl3_loaded))
     = Some (skipn (Z.to_nat (SDL3.playHead sdl3_loaded))
               (SDL3.audioBuffer sdl3_loaded)).
Proof.
  apply (X6_sdl3_play_enqueues_remaining_segment 32 sdl3_loaded
           (SDL3.mkStream 2 2 [] one true)).
  - lia.
  - reflexivity.
  - reflexivity.
  - vm_compute. discriminate.
  - vm_compute. split; reflexivity.
Defined.

(** X7.  The reported time does not depend on the play-head: the anchor
    cancels out of [playHead + ((size - playHead) - pending)], wrap-around
    included, so two engines that differ in the play-head only report the
    same time. *)
Theorem X7_sdl3_time_ignores_play_head :
  forall (w p : Z) (s : SDL3.PlayerState),
    option_map fst (SDL3.get_current_time w (SDL3.set_playHead p s))
    = option_map fst (SDL3.get_current_time w s).
Proof.
  intros w p s. unfold SDL3.get_current_time.
  change (SDL3.stream (SDL3.set_playHead p s)) with (SDL3.stream s).
  change (SDL3.size (SDL3.set_playHead p s)) with (SDL3.size s).
  change (SDL3.channels (SDL3.set_playHead p s)) with (SDL3.channels s).
  change (SDL3.sampleRate (SDL3.set_playHead p s)) with (SDL3.sampleRate s).
  destruct (SDL3.stream s) as [st|]; [|reflexivity].
  destruct (SDL3.size s =? 0); [reflexivity|]. cbv zeta.
  rewrite !sdl3_index_formula.
  change (SDL3.size (SDL3.set_playHead p s)) with (SDL3.size s).
  now destruct (_ =? 0).
Qed.

(** X8.  For every pending byte count the stream can report, the sample
    index rebuilt by [get_current_time] is the buffer size minus the pending
    samples while those fit in the buffer, and the buffer size itself (the
    end of the track) as soon as they do not; so it never leaves the
    buffer. *)
Theorem X8_sdl3_sample_index_by_pending :
  forall (w q : Z) (s : SDL3.PlayerState),
    0 <= w ->
    0 <= q < 2 ^ w ->
    SDL3.size s < 2 ^ w ->
    SDL3.current_sample_index w q s
    = (if q / CInt.sizeof_float <=? SDL3.size s
       then SDL3.size s - q / CInt.sizeof_float
       else SDL3.size s)
    /\ 0 <= SDL3.current_sample_index w q s <= SDL3.size s.
Proof.
  intros w q s Hw Hq Hs. split.
  - destruct (Z.leb_spec (q / CInt.sizeof_float) (SDL3.size s)).
    + apply sdl3_index_in_range; lia.
    + now apply sdl3_index_excess.
  - now apply sdl3_index_bounds.
Qed.

Lemma X8_sdl3_sample_index_by_pending_witness :
  SDL3.current_sample_index 32 24 sdl3_loaded
  = (if 24 / CInt.sizeof_float <=? SDL3.size sdl3_loaded
     then SDL3.size sdl3_loaded - 24 / CInt.sizeof_float
     else SDL3.size sdl3_loaded)
  /\ 0 <= SDL3.current_sample_index 32 24 sdl3_loaded <= SDL3.size sdl3_loaded.
Proof.
  apply (X8_sdl3_sample_index_by_pending 32 24 sdl3_loaded).
  - lia.
  - vm_compute. split; [discriminate | reflexivity].
  - vm_compute. reflexivity.
Defined.

(** ** How the operations compose *)

(** X9.  Pausing and playing again is the identity on an engine that is
    playing with the device running, as long as data is still pending or
    the play-head is at the end: nothing is enqueued a second time. *)
Theorem X9_sdl3_pause_then_play_is_identity :
  forall (w : Z) (s : SDL3.PlayerState) (st : SDL3.AudioStream),
    SDL3.stream s = Some st ->
    SDL3.audioBuffer s <> [] ->
    SDL3.isPlaying s = true ->
    SDL3.devicePaused s = false ->
    SDL3.st_queue st <> [] \/ SDL3.size s <= SDL3.playHead s ->
    SDL3.play w (SDL3.pause_audio s) = s.
Proof.
  intros w s st Es Hb Hp Hd Hq.
  destruct s as [st0 buf ip vol sr ch ph dev dp].
  cbn in Es, Hb, Hp, Hd. subst st0 ip dp.
  unfold SDL3.pause_audio, SDL3.play, SDL3.size in *.
  cbn -[Z.of_nat CInt.wrap CInt.to_int Z.mul Z.sub Z.ltb Z.eqb Z.leb] in *.
  destruct (Z.eqb_spec (Z.of_nat (length buf)) 0) as [E|_].
  { destruct buf; [congruence | cbn [length] in E; lia]. }
  assert (Hc : (SDL3.SDL_GetAudioStreamAvailable st =? 0)
               && (ph <? Z.of_nat (length buf)) = false).
  { destruct Hq as [Hq | Hq].
    - apply andb_false_intro1, Z.eqb_neq.
      unfold SDL3.SDL_GetAudioStreamAvailable, CInt.sizeof_float.
      destruct (SDL3.st_queue st); [congruence | cbn [length]; lia].
    - apply andb_false_intro2, Z.ltb_ge. exact Hq. }
  now rewrite Hc.
Qed.

Lemma X9_sdl3_pause_then_play_is_identity_witness :
  SDL3.play 32 (SDL3.pause_audio (sdl3_playing 32)) = sdl3_playing 32.
Proof.
  apply (X9_sdl3_pause_then_play_is_identity 32 (sdl3_playing 32)
           (SDL3.mkStream 2 2 track16 one true)).
  - reflexivity.
  - vm_compute. discriminate.
  - reflexivity.
  - reflexivity.
  - left. vm_compute. discriminate.
Defined.

(** X10.  The SDL3 [resume_audio] agrees with [play] exactly where [play]
    has nothing to enqueue: on a bound, loaded engine with data pending or
    the play-head at the end. *)
Theorem X10_sdl3_resume_is_play_when_data_pending :
  forall (w : Z) (s : SDL3.PlayerState) (st : SDL3.AudioStream),
    SDL3.stream s = Some st ->
    SDL3.audioBuffer s <> [] ->
    SDL3.st_queue st <> [] \/ SDL3.size s <= SDL3.playHead s ->
    SDL3.resume_audio s = SDL3.play w s.
Proof.
  intros w s st Es Hb Hq.
  unfold SDL3.resume_audio, SDL3.play. rewrite Es.
  destruct (Z.eqb_spec (SDL3.size s) 0) as [E|_].
  { unfold SDL3.size in E. destruct (SDL3.audioBuffer s);
      [congruence | cbn [length] in E; lia]. }
  destruct (SDL3.isPlaying s); [reflexivity|]. cbv zeta.
  change (SDL3.size (SDL3.set_devicePaused false (SDL3.set_isPlaying true s)))
    with (SDL3.size s).
  change (SDL3.playHead (SDL3.set_devicePaused false (SDL3.set_isPlaying true s)))
    with (SDL3.playHead s).
  assert (Hc : (SDL3.SDL_GetAudioStreamAvailable st =? 0)
               && (SDL3.playHead s <? SDL3.size s) = false).
  { destruct Hq as [Hq | Hq].
    - apply andb_false_intro1, Z.eqb_neq.
      unfold SDL3.SDL_GetAudioStreamAvailable, CInt.sizeof_float.
      destruct (SDL3.st_queue st); [congruence | cbn [length]; lia].
    - apply andb_false_intro2, Z.ltb_ge. exact Hq. }
  now rewrite Hc.
Qed.

Lemma X10_sdl3_resume_is_play_when_data_pending_witness :
  SDL3.resume_audio (SDL3.pause_audio (sdl3_playing 32))
  = SDL3.play 32 (SDL3.pause_audio (sdl3_playing 32)).
Proof.
  apply (X10_sdl3_resume_is_play_when_data_pending 32
           (SDL3.pause_audio (sdl3_playing 32))
           (SDL3.mkStream 2 2 track16 one true)).
  - reflexivity.
  - vm_compute. discriminate.
  - left. vm_compute. discriminate.
Defined.

(** X11.  [stop] followed by [play] restarts the track: the play-head is
    0, the engine is playing, and the data put into the stream and not yet
    consumed are the whole buffer. *)
Theorem X11_sdl3_stop_then_play_restarts :
  forall (w : Z) (s : SDL3.PlayerState),
    32 <= w ->
    SDL3.stream s <> None ->
    0 < SDL3.size s < 2 ^ 29 ->
    let s' := SDL3.play w (SDL3.stop s) in
    SDL3.playHead s' = 0
    /\ SDL3.isPlaying s' = true
    /\ option_map SDL3.st_queue (SDL3.stream s') = Some (SDL3.audioBuffer s).
Proof.
  intros w s Hw Hs Hsz s'.
  destruct (SDL3.stream s) as [st|] eqn:Es; [|congruence].
  assert (Estop : SDL3.stop s
                  = SDL3.set_playHead 0
                      (SDL3.set_isPlaying false
                         (SDL3.set_stream (Some (SDL3.SDL_ClearAudioStream st)) s)))
    by (unfold SDL3.stop; now rewrite Es).
  assert (Eplay : s' = SDL3.set_stream
                         (Some (SDL3.mkStream (SDL3.st_channels st) (SDL3.st_freq st)
                                  (SDL3.audioBuffer s) (SDL3.st_gain st)
                                  (SDL3.st_bound st)))
                         (SDL3.set_devicePaused false
                            (SDL3.set_isPlaying true (SDL3.stop s)))).
  { subst s'.
    rewrite (sdl3_play_queue w (SDL3.stop s) (SDL3.SDL_ClearAudioStream st) Hw);
      rewrite Estop; try reflexivity; cbn [SDL3.playHead SDL3.set_playHead]; try lia.
    exact Hsz. }
  rewrite Eplay. split; [now rewrite Estop|]. split; reflexivity.
Qed.

Lemma X11_sdl3_stop_then_play_restarts_witness :
  let s := SDL3.consumed 6 (sdl3_playing 32) in
  let s' := SDL3.play 32 (SDL3.stop s) in
  SDL3.playHead s' = 0
  /\ SDL3.isPlaying s' = true
  /\ option_map SDL3.st_queue (SDL3.stream s') = Some (SDL3.audioBuffer s).
Proof.
  apply (X11_sdl3_stop_then_play_restarts 32 (SDL3.consumed 6 (sdl3_playing 32))).
  - lia.
  - vm_compute. discriminate.
  - vm_compute. split; reflexivity.
Defined.

(** X12.  A seek made while paused takes effect at the next [play]: the
    seek leaves the stream empty, and [play] then starts the engine with
    the play-head where the seek put it and puts into the stream the buffer
    from that play-head on, nothing of what was pending before the seek. *)
Theorem X12_sdl3_paused_seek_then_play_is_exact :
  forall (w : Z) (t : F32.t) (s s' : SDL3.PlayerState),
    32 <= w ->
    SDL3.stream s <> None ->
    SDL3.isPlaying s = false ->
    0 < SDL3.size s < 2 ^ 29 ->
    SDL3.seek w t s = Some s' ->
    option_map SDL3.st_queue (SDL3.stream s') = Some []
    /\ SDL3.isPlaying (SDL3.play w s') = true
    /\ SDL3.playHead (SDL3.play w s') = SDL3.playHead s'
    /\ option_map SDL3.st_queue (SDL3.stream (SDL3.play w s'))
       = Some (skipn (Z.to_nat (SDL3.playHead s')) (SDL3.audioBuffer s)).
Proof.
  intros w t s s' Hw Hs Hp Hsz Hseek.
  pose proof (sdl3_size_pos_buffer s (proj1 Hsz)) as Hb.
  destruct (sdl3_seek_playHead w t s s' Hseek Hs Hb) as (Hi & Hbuf & Hch & Hr & Hp').
  pose proof (sdl3_seek_index_bounds w t s _ ltac:(lia) Hi) as Hrange.
  pose proof (sdl3_seek_index_channels w t s _ Hi) as Hc0.
  pose proof (sdl3_seek_paused_queue w t s s' Hseek Hs Hb Hp) as Hq.
  destruct (SDL3.stream s') as [st'|] eqn:Es'; [|discriminate].
  injection Hq as Hq.
  assert (Hsz' : SDL3.size s' = SDL3.size s) by (unfold SDL3.size; now rewrite Hbuf).
  assert (Hplay := sdl3_play_queue w s' st' Hw Es').
  rewrite Hq, Hbuf, Hp', Hsz' in Hplay.
  specialize (Hplay Hp (proj1 Hrange) Hsz).
  split; [cbn [option_map]; now rewrite Hq|].
  rewrite Hplay. now repeat split.
Qed.

Lemma X12_sdl3_paused_seek_then_play_is_exact_witness :
  match SDL3.seek 32 one sdl3_loaded with
  | Some s' =>
      option_map SDL3.st_queue (SDL3.stream s') = Some []
      /\ SDL3.isPlaying (SDL3.play 32 s') = true
      /\ SDL3.playHead (SDL3.play 32 s') = SDL3.playHead s'
      /\ option_map SDL3.st_queue (SDL3.stream (SDL3.play 32 s'))
         = Some (skipn (Z.to_nat (SDL3.playHead s')) (SDL3.audioBuffer sdl3_loaded))
  | None => False
  end.
Proof.
  destruct (SDL3.seek 32 one sdl3_loaded) as [s'|] eqn:E.
  - apply (X12_sdl3_paused_seek_then_play_is_exact 32 one sdl3_loaded s').
    + lia.
    + vm_compute. discriminate.
    + reflexivity.
    + vm_compute. split; reflexivity.
    + exact E.
  - vm_compute in E. discriminate E.
Defined.

(** X13.  [pause_audio], [resume_audio] and [set_volume] do not move the
    reported time: it is read from the buffer, the format and the pending
    data, which they leave alone. *)
Theorem X13_sdl3_time_unchanged_by_pause_and_volume :
  forall (w : Z) (vol : F32.t) (s : SDL3.PlayerState),
    option_map fst (SDL3.get_current_time w (SDL3.pause_audio s))
    = option_map fst (SDL3.get_current_time w s)
    /\ option_map fst (SDL3.get_current_time w (SDL3.resume_audio s))
       = option_map fst (SDL3.get_current_time w s)
    /\ option_map fst (SDL3.get_current_time w (SDL3.set_volume vol s))
       = option_map fst (SDL3.get_current_time w s).
Proof.
  intros w vol s.
  assert (Hgen : forall s1 : SDL3.PlayerState,
             SDL3.audioBuffer s1 = SDL3.audioBuffer s ->
             SDL3.channels s1 = SDL3.channels s ->
             SDL3.sampleRate s1 = SDL3.sampleRate s ->
             SDL3.playHead s1 = SDL3.playHead s ->
             option_map SDL3.st_queue (SDL3.stream s1)
             = option_map SDL3.st_queue (SDL3.stream s) ->
             option_map fst (SDL3.get_current_time w s1)
             = option_map fst (SDL3.get_current_time w s)).
  { intros s1 Hb Hc Hr Hp Hq.
    unfold SDL3.get_current_time, SDL3.current_sample_index, SDL3.size,
      SDL3.SDL_GetAudioStreamAvailable.
    rewrite Hb, Hc, Hr, Hp.
    destruct (SDL3.stream s1) as [a1|], (SDL3.stream s) as [a|];
      try discriminate; [|reflexivity].
    injection Hq as Hq. rewrite Hq. cbv zeta.
    destruct (Z.of_nat _ =? 0); [reflexivity|].
    now destruct (CInt.wrap _ _ =? 0). }
  split; [|split].
  - unfold SDL3.pause_audio.
    destruct (negb (SDL3.isPlaying s)); [reflexivity|]. now apply Hgen.
  - unfold SDL3.resume_audio.
    destruct (SDL3.isPlaying s); [reflexivity|]. now apply Hgen.
  - apply Hgen; unfold SDL3.set_volume; cbn;
      destruct (SDL3.stream s) eqn:Es; cbn; rewrite ?Es; reflexivity.
Qed.

(** ** Loading and releasing *)



(** X15.  After [cleanup] the engine is inert: [play], [stop] and [seek]
    leave the state as it is, the reported time is 0, and a second
    [cleanup] changes nothing. *)
Theorem X15_sdl3_cleanup_leaves_engine_inert :
  forall (w : Z) (t : F32.t) (s : SDL3.PlayerState),
    let c := SDL3.cleanup s in
    SDL3.play w c = c
    /\ SDL3.stop c = c
    /\ SDL3.seek w t c = Some c
    /\ SDL3.get_current_time w c = Some (F32.zero, c)
    /\ SDL3.cleanup c = c.
Proof.
  intros w t s c.
  assert (Hs : SDL3.stream c = None) by reflexivity.
  repeat match goal with |- _ /\ _ => split end.
  - now apply sdl3_play_unbound.
  - unfold SDL3.stop. now rewrite Hs.
  - apply sdl3_seek_unbound. now left.
  - apply sdl3_time_unbound. now left.
  - reflexivity.
Qed.

(** ** Seeking to the start *)

(** [seek(0.0)] computes index 0 whenever the sample rate converts to a
    finite [float]. *)
Lemma sdl3_seek_index_zero (w : Z) (s : SDL3.PlayerState) :
  0 <= w ->
  SDL3.audioBuffer s <> [] ->
  CInt.wrap w (SDL3.channels s) <> 0 ->
  F32.trunc (F32.of_Z (SDL3.sampleRate s)) <> None ->
  SDL3.seek_index w F32.zero s = Some 0.
Proof.
  intros Hw Hb Hch Hfin. unfold SDL3.seek_index.
  assert (Hmul : F32.to_size w (F32.mul F32.zero (F32.of_Z (SDL3.sampleRate s)))
                 = Some 0).
  { unfold F32.mul, F32.zero, F32.to_size.
    assert (H2 : (0 <? 2 ^ w) = true)
      by (apply Z.ltb_lt, Z.pow_pos_nonneg; lia).
    destruct (F32.of_Z (SDL3.sampleRate s)); cbn in Hfin |- *;
      try congruence; now rewrite H2. }
  rewrite Hmul. cbv zeta.
  destruct (Z.eqb_spec (CInt.wrap w (SDL3.channels s)) 0); [contradiction|].
  rewrite Z.mul_0_l.
  assert (H0 : CInt.wrap w 0 = 0) by (unfold CInt.wrap; apply Zmod_0_l).
  rewrite H0, Zmod_0_l, Z.sub_0_r, H0.
  destruct (Z.leb_spec (SDL3.size s) 0) as [H|H]; [|reflexivity].
  unfold SDL3.size in H. destruct (SDL3.audioBuffer s); [congruence|].
  cbn [length] in H. lia.
Qed.

(** X16.  On a paused engine [seek(0.0)] is [stop]: both clear the stream
    and put the play-head at 0. *)
Theorem X16_sdl3_seek_zero_when_paused_is_stop :
  forall (w : Z) (s : SDL3.PlayerState),
    0 <= w ->
    SDL3.stream s <> None ->
    SDL3.audioBuffer s <> [] ->
    SDL3.isPlaying s = false ->
    CInt.wrap w (SDL3.channels s) <> 0 ->
    F32.trunc (F32.of_Z (SDL3.sampleRate s)) <> None ->
    SDL3.seek w F32.zero s = Some (SDL3.stop s).
Proof.
  intros w s Hw Hs Hb Hp Hch Hfin.
  pose proof (sdl3_seek_index_zero w s Hw Hb Hch Hfin) as Hi.
  unfold SDL3.seek, SDL3.stop. rewrite Hi.
  destruct (SDL3.stream s) as [st|] eqn:Es; [|congruence].
  destruct (Z.eqb_spec (SDL3.size s) 0) as [E|_].
  { unfold SDL3.size in E. destruct (SDL3.audioBuffer s); [congruence|].
    cbn [length] in E. lia. }
  cbv zeta.
  change (SDL3.isPlaying (SDL3.set_stream _ (SDL3.set_playHead 0 s)))
    with (SDL3.isPlaying s).
  rewrite Hp. f_equal.
  destruct s as [st0 buf ip vol sr ch ph dev dp]. cbn in Hp |- *. now subst ip.
Qed.

Lemma X16_sdl3_seek_zero_when_paused_is_stop_witness :
  SDL3.seek 32 F32.zero (SDL3.pause_audio (SDL3.consumed 4 (sdl3_playing 32)))
  = Some (SDL3.stop (SDL3.pause_audio (SDL3.consumed 4 (sdl3_playing 32)))).
Proof.
  apply (X16_sdl3_seek_zero_when_paused_is_stop 32
           (SDL3.pause_audio (SDL3.consumed 4 (sdl3_playing 32)))).
  - lia.
  - vm_compute. discriminate.
  - vm_compute. discriminate.
  - reflexivity.
  - vm_compute. discriminate.
  - vm_compute. discriminate.
Defined.

(** X17.  On an engine that is playing with the device running,
    [seek(0.0)] is [stop] followed by [play]: the track restarts with the
    whole buffer pending. *)
Theorem X17_sdl3_seek_zero_when_playing_is_restart :
  forall (w : Z) (s : SDL3.PlayerState),
    32 <= w ->
    SDL3.stream s <> None ->
    0 < SDL3.size s < 2 ^ 29 ->
    SDL3.isPlaying s = true ->
    SDL3.devicePaused s = false ->
    CInt.wrap w (SDL3.channels s) <> 0 ->
    F32.trunc (F32.of_Z (SDL3.sampleRate s)) <> None ->
    SDL3.seek w F32.zero s = Some (SDL3.play w (SDL3.stop s)).
Proof.
  intros w s Hw Hs Hsz Hp Hd Hch Hfin.
  pose proof (sdl3_size_pos_buffer s (proj1 Hsz)) as Hb.
  pose proof (sdl3_seek_index_zero w s ltac:(lia) Hb Hch Hfin) as Hi.
  destruct (SDL3.stream s) as [st|] eqn:Es; [|congruence].
  assert (Estop : SDL3.stop s
                  = SDL3.set_playHead 0
                      (SDL3.set_isPlaying false
                         (SDL3.set_stream (Some (SDL3.SDL_ClearAudioStream st)) s)))
    by (unfold SDL3.stop; now rewrite Es).
  rewrite (sdl3_play_queue w (SDL3.stop s) (SDL3.SDL_ClearAudioStream st) Hw);
    rewrite ?Estop; try reflexivity; cbn [SDL3.playHead SDL3.set_playHead];
    try lia; try exact Hsz.
  unfold SDL3.seek. rewrite Es, Hi.
  destruct (Z.eqb_spec (SDL3.size s) 0); [lia|]. cbv zeta.
  change (SDL3.isPlaying (SDL3.set_stream _ (SDL3.set_playHead 0 s)))
    with (SDL3.isPlaying s).
  change (SDL3.size (SDL3.set_stream _ (SDL3.set_playHead 0 s)))
    with (SDL3.size s).
  change (SDL3.playHead (SDL3.set_stream _ (SDL3.set_playHead 0 s))) with 0.
  change (SDL3.audioBuffer (SDL3.set_stream _ (SDL3.set_playHead 0 s)))
    with (SDL3.audioBuffer s).
  rewrite Hp, Z.sub_0_r.
  assert (H31 : 2 ^ 31 < 2 ^ w) by (apply Z.pow_lt_mono_r; lia).
  change (2 ^ 29) with 536870912 in *. change (2 ^ 31) with 2147483648 in *.
  rewrite (wrap_small w (SDL3.size s)) by lia.
  destruct (Z.ltb_spec 0 (SDL3.size s)); [|lia].
  unfold SDL3.SDL_PutAudioStreamData, CInt.sizeof_float.
  rewrite (wrap_small w (SDL3.size s * 4)) by lia.
  rewrite to_int_small by (change (2 ^ 31) with 2147483648; lia).
  destruct (Z.ltb_spec (SDL3.size s * 4) 0); [lia|].
  rewrite Z.div_mul by lia.
  change (Z.to_nat 0) with 0%nat. cbn [skipn].
  rewrite firstn_all2 by (unfold SDL3.size; lia).
  f_equal.
  destruct s as [st0 buf ip vol sr ch ph dev dp].
  cbn in Hp, Hd, Es |- *. now subst ip dp.
Qed.

Lemma X17_sdl3_seek_zero_when_playing_is_restart_witness :
  SDL3.seek 32 F32.zero (SDL3.consumed 4 (sdl3_playing 32))
  = Some (SDL3.play 32 (SDL3.stop (SDL3.consumed 4 (sdl3_playing 32)))).
Proof.
  apply (X17_sdl3_seek_zero_when_playing_is_restart 32
           (SDL3.consumed 4 (sdl3_playing 32))).
  - lia.
  - vm_compute. discriminate.
  - vm_compute. split; reflexivity.
  - reflexivity.
  - reflexivity.
  - vm_compute. discriminate.
  - vm_compute. discriminate.
Defined.

(** ** The SDL2 engine *)

Lemma sdl2_size_nonneg (s : SDL2.PlayerState) : 0 <= SDL2.size s.
Proof. unfold SDL2.size. lia. Qed.

Lemma sdl2_seek_index_bounds (w : Z) (t : F32.t) (s : SDL2.PlayerState) (i : Z) :
  0 <= w -> SDL2.seek_index w t s = Some i -> 0 <= i <= SDL2.size s.
Proof.
  intros Hw. unfold SDL2.seek_index. cbv zeta.
  destruct (F32.to_size _ _) as [n|]; [|discriminate].
  destruct (_ =? 0); [discriminate|].
  pose proof (sdl2_size_nonneg s).
  match goal with |- context [SDL2.size s <=? ?c] =>
    match c with CInt.wrap w ?x => pose proof (wrap_range w x Hw) end;
    destruct (Z.leb_spec (SDL2.size s) c) end;
    intros [= <-]; lia.
Qed.

Lemma sdl2_seek_index_aligned (w : Z) (t : F32.t) (s : SDL2.PlayerState) (i : Z) :
  0 <= w ->
  SDL2.seek_index w t s = Some i ->
  SDL2.size s mod CInt.wrap w (SDL2.channels s) = 0 ->
  i mod CInt.wrap w (SDL2.channels s) = 0.
Proof.
  intros Hw. unfold SDL2.seek_index. cbv zeta.
  destruct (F32.to_size _ _) as [n|]; [|discriminate].
  set (ch := CInt.wrap w (SDL2.channels s)).
  destruct (Z.eqb_spec ch 0) as [|Hch]; [discriminate|].
  set (x := CInt.wrap w (n * ch)).
  assert (Hx : 0 <= x < 2 ^ w) by (apply wrap_range; exact Hw).
  assert (Hc : 0 < ch)
    by (pose proof (wrap_range w (SDL2.channels s) Hw) as H; fold ch in H; lia).
  pose proof (Z.mod_pos_bound x ch Hc) as Hm.
  pose proof (Z.mod_le x ch (proj1 Hx) Hc) as Hle.
  rewrite (wrap_small w (x - x mod ch)) by lia.
  destruct (SDL2.size s <=? x - x mod ch); intros [= <-] Hsz; [exact Hsz|].
  rewrite Zminus_mod, Z.mod_mod, Z.sub_diag by lia. apply Z.mod_0_l; lia.
Qed.

(** What [play] leaves alone. *)
Lemma sdl2_play_frame (w : Z) conv (s : SDL2.PlayerState) :
  SDL2.playHead (SDL2.play w conv s) = SDL2.playHead s
  /\ SDL2.audioBuffer (SDL2.play w conv s) = SDL2.audioBuffer s
  /\ SDL2.channels (SDL2.play w conv s) = SDL2.channels s.
Proof.
  unfold SDL2.play.
  destruct (_ || _); [now repeat split|].
  destruct (SDL2.isPlaying s); [now repeat split|].
  cbv zeta. destruct (_ && _); [|now repeat split].
  match goal with
  | |- context [SDL2.push_converted _ ?len ?s0] =>
      destruct (sdl2_push_converted_frame conv len s0)
        as (Hb & _ & _ & Hp & Hc & _)
  end.
  rewrite Hb, Hp, Hc. now repeat split.
Qed.

(** What [seek] changes when it goes through. *)
Lemma sdl2_seek_frame (w : Z) conv (t : F32.t) (s s' : SDL2.PlayerState) :
  SDL2.seek w conv t s = Some s' ->
  s' = s
  \/ (SDL2.seek_index w t s = Some (SDL2.playHead s')
      /\ SDL2.audioBuffer s' = SDL2.audioBuffer s
      /\ SDL2.channels s' = SDL2.channels s).
Proof.
  unfold SDL2.seek.
  destruct (_ || _); [intros [= <-]; now left|].
  destruct (SDL2.seek_index w t s) as [i|]; [|discriminate].
  cbv zeta.
  change (SDL2.isPlaying (SDL2.set_stream _ (SDL2.set_deviceQueued 0
            (SDL2.set_playHead i s)))) with (SDL2.isPlaying s).
  destruct (SDL2.isPlaying s); intros [= <-]; right.
  - match goal with
    | |- context [SDL2.push_converted _ ?len ?s0] =>
        destruct (sdl2_push_converted_frame conv len s0)
          as (Hb & _ & _ & Hp & Hc & _)
    end.
    rewrite Hb, Hp, Hc. now repeat split.
  - now repeat split.
Qed.

Lemma sdl2_step_invariant (w : Z) conv (c : SDL2.call) (x x' : SDL2.Session) :
  0 <= w ->
  SDL2.whole_frames w c ->
  SDL2.frames_kept w (SDL2.engine x) ->
  SDL2.step w conv c x = Some x' ->
  SDL2.frames_kept w (SDL2.engine x').
Proof.
  intros Hw Hc Hinv Hstep. destruct x as [s fr].
  cbn [SDL2.engine] in Hinv.
  assert (Hkeep : forall s1 : SDL2.PlayerState,
             SDL2.playHead s1 = SDL2.playHead s ->
             SDL2.audioBuffer s1 = SDL2.audioBuffer s ->
             SDL2.channels s1 = SDL2.channels s ->
             SDL2.frames_kept w s1).
  { intros s1 Hp Hb Hch. unfold SDL2.frames_kept, SDL2.size in *.
    now rewrite Hp, Hb, Hch. }
  unfold SDL2.step in Hstep. cbv zeta in Hstep.
  cbn [SDL2.engine SDL2.stream_freed] in Hstep.
  destruct c.
  - (* init_audio *)
    injection Hstep as <-. cbn [SDL2.engine]. unfold SDL2.init_audio.
    destruct (negb sdl_ok); [exact Hinv|].
    destruct (_ =? 0); now apply Hkeep.
  - (* set_audio_data *)
    destruct fr; [discriminate|].
    injection Hstep as <-. cbn [SDL2.engine].
    cbn in Hc. destruct Hc as [Hok Hwhole].
    unfold SDL2.set_audio_data. rewrite Hok.
    destruct (SDL2.stream s), (SDL2.deviceId _ =? 0),
      (SDL2.dev_id (SDL2.device_open env) =? 0), (SDL2.new_stream_ok env);
      unfold SDL2.frames_kept, SDL2.size; cbn;
      rewrite ?Zmod_0_l; repeat split; try lia; exact Hwhole.
  - (* play *)
    destruct (fr && _); [discriminate|].
    injection Hstep as <-. cbn [SDL2.engine].
    destruct (sdl2_play_frame w conv s) as (Hp & Hb & Hch). now apply Hkeep.
  - (* pause_audio *)
    injection Hstep as <-. cbn [SDL2.engine]. unfold SDL2.pause_audio.
    destruct (negb _); [exact Hinv | now apply Hkeep].
  - (* resume_audio *)
    destruct (fr && _); [discriminate|].
    injection Hstep as <-. cbn [SDL2.engine]. unfold SDL2.resume_audio.
    destruct (SDL2.isPlaying s); [exact Hinv|].
    destruct (sdl2_play_frame w conv s) as (Hp & Hb & Hch). now apply Hkeep.
  - (* stop *)
    destruct (fr && _); [discriminate|].
    injection Hstep as <-. cbn [SDL2.engine]. unfold SDL2.stop.
    destruct (_ =? 0); [exact Hinv|].
    destruct Hinv as (_ & Hm & _).
    unfold SDL2.frames_kept, SDL2.size in *; cbn.
    rewrite ?Zmod_0_l. repeat split; try lia; exact Hm.
  - (* seek *)
    destruct (fr && _); [discriminate|].
    destruct (SDL2.seek w conv time s) as [s1|] eqn:Hseek; [|discriminate].
    injection Hstep as <-. cbn [SDL2.engine].
    destruct (sdl2_seek_frame w conv time s s1 Hseek) as [-> | (Hi & Hb & Hch)];
      [exact Hinv|].
    destruct Hinv as (_ & Hm & _).
    unfold SDL2.frames_kept. unfold SDL2.size. rewrite Hb, Hch.
    fold (SDL2.size s). repeat split.
    + exact (sdl2_seek_index_aligned w time s _ Hw Hi Hm).
    + exact Hm.
    + apply (sdl2_seek_index_bounds w time s _ Hw Hi).
    + apply (sdl2_seek_index_bounds w time s _ Hw Hi).
  - (* get_current_time *)
    destruct (SDL2.get_current_time w s) as [[r s1]|] eqn:Ht; [|discriminate].
    injection Hstep as <-. cbn [SDL2.engine].
    assert (s1 = s) as ->; [|exact Hinv].
    unfold SDL2.get_current_time in Ht.
    destruct (_ || _); [now injection Ht|].
    cbv zeta in Ht.
    destruct (CInt.int_checked _); [|discriminate]. now injection Ht.
  - (* set_volume *)
    injection Hstep as <-. now apply Hkeep.
  - (* cleanup *)
    destruct fr; [discriminate|].
    injection Hstep as <-. cbn [SDL2.engine].
    destruct Hinv as (Hp & _ & _).
    unfold SDL2.cleanup. cbv zeta.
    destruct (_ =? 0); unfold SDL2.frames_kept, SDL2.size; cbn;
      rewrite ?Zmod_0_l; (split; [exact Hp | split; [reflexivity | congruence]]).
  - (* the device plays *)
    injection Hstep as <-. now apply Hkeep.
Qed.

(** X18.  In the SDL2 engine, along any sequence of calls, [cleanup]
    among them, in which every load copies a whole number of frames,
    however many bytes the device plays in between, the play-head stays on
    a frame boundary, and inside the buffer as long as the buffer is not
    empty.  ([cleanup] empties the buffer and keeps the play-head, so the
    play-head can lie past an empty buffer.) *)
Theorem X18_sdl2_play_head_stays_frame_aligned :
  forall (w : Z) (conv : Z -> Z -> Z -> Z -> Z -> Z)
         (cs : list SDL2.call) (x : SDL2.Session),
    0 <= w ->
    Forall (SDL2.whole_frames w) cs ->
    SDL2.run w conv cs SDL2.session0 = Some x ->
    let s := SDL2.engine x in
    SDL2.playHead s mod CInt.wrap w (SDL2.channels s) = 0
    /\ (SDL2.audioBuffer s <> [] -> 0 <= SDL2.playHead s <= SDL2.size s).
Proof.
  intros w conv cs x Hw Hcs.
  assert (H0 : SDL2.frames_kept w (SDL2.engine SDL2.session0)).
  { unfold SDL2.frames_kept, SDL2.size. cbn. rewrite ?Zmod_0_l.
    repeat split; try reflexivity; intros H; now elim H. }
  revert H0. generalize SDL2.session0 as x0.
  induction Hcs as [|c cs Hc _ IH]; intros x0 H0 Hrun.
  - injection Hrun as <-. cbv zeta.
    destruct H0 as (Hp & _ & Hr). exact (conj Hp Hr).
  - cbn [SDL2.run] in Hrun.
    destruct (SDL2.step w conv c x0) as [x1|] eqn:Hstep; [|discriminate].
    apply (IH x1); [|exact Hrun].
    exact (sdl2_step_invariant w conv c x0 x1 Hw Hc H0 Hstep).
Qed.

Lemma X18_sdl2_play_head_stays_frame_aligned_witness :
  match SDL2.run 32 ideal_converted_size session2 SDL2.session0 with
  | Some x =>
      SDL2.audioBuffer (SDL2.engine x) = []
      /\ SDL2.playHead (SDL2.engine x) = 4
      /\ SDL2.playHead (SDL2.engine x)
         mod CInt.wrap 32 (SDL2.channels (SDL2.engine x)) = 0
  | None => False
  end.
Proof.
  destruct (SDL2.run 32 ideal_converted_size session2 SDL2.session0)
    as [x|] eqn:E.
  - pose proof (X18_sdl2_play_head_stays_frame_aligned 32
                  ideal_converted_size session2 x
                  ltac:(lia) ltac:(repeat constructor) E) as H.
    cbv zeta in H. destruct H as [Hp _].
    vm_compute in E. injection E as <-.
    split; [reflexivity | split; [reflexivity | exact Hp]].
  - vm_compute in E. discriminate E.
Defined.

Lemma sdl2_guard_open (s : SDL2.PlayerState) :
  SDL2.deviceId s <> 0 ->
  SDL2.audioBuffer s <> [] ->
  (SDL2.deviceId s =? 0) || (SDL2.size s =? 0) = false.
Proof.
  intros Hd Hb. apply orb_false_intro; apply Z.eqb_neq; [exact Hd|].
  unfold SDL2.size. destruct (SDL2.audioBuffer s); [congruence|].
  cbn [length]. lia.
Qed.

(** X19.  An SDL2 [seek] on an open device with a loaded buffer throws away
    whatever the device still had queued: its result does not depend on the
    amount queued before, and when the engine is paused neither the device
    queue nor the stream holds anything afterwards. *)
Theorem X19_sdl2_seek_discards_pending_data :
  forall (w : Z) (conv : Z -> Z -> Z -> Z -> Z -> Z) (t : F32.t) (q : Z)
         (s : SDL2.PlayerState),
    SDL2.deviceId s <> 0 ->
    SDL2.audioBuffer s <> [] ->
    SDL2.seek w conv t (SDL2.set_deviceQueued q s) = SDL2.seek w conv t s
    /\ (SDL2.isPlaying s = false ->
        forall s', SDL2.seek w conv t s = Some s' ->
                   SDL2.deviceQueued s' = 0
                   /\ SDL2.SDL_AudioStreamAvailable (SDL2.stream s') = 0).
Proof.
  intros w conv t q s Hd Hb.
  pose proof (sdl2_guard_open s Hd Hb) as Hg.
  split.
  - unfold SDL2.seek.
    change (SDL2.deviceId (SDL2.set_deviceQueued q s)) with (SDL2.deviceId s).
    change (SDL2.size (SDL2.set_deviceQueued q s)) with (SDL2.size s).
    change (SDL2.seek_index w t (SDL2.set_deviceQueued q s))
      with (SDL2.seek_index w t s).
    rewrite Hg. destruct (SDL2.seek_index w t s); reflexivity.
  - intros Hp s'. unfold SDL2.seek. rewrite Hg.
    destruct (SDL2.seek_index w t s) as [i|]; [|discriminate].
    cbv zeta.
    change (SDL2.isPlaying (SDL2.set_stream _ (SDL2.set_deviceQueued 0
              (SDL2.set_playHead i s)))) with (SDL2.isPlaying s).
    rewrite Hp. intros [= <-]. cbn.
    now destruct (SDL2.stream s).
Qed.

Lemma X19_sdl2_seek_discards_pending_data_witness :
  SDL2.seek 32 ideal_converted_size one (SDL2.set_deviceQueued 4096 sdl2_loaded)
  = SDL2.seek 32 ideal_converted_size one sdl2_loaded
  /\ (SDL2.isPlaying sdl2_loaded = false ->
      forall s', SDL2.seek 32 ideal_converted_size one sdl2_loaded = Some s' ->
                 SDL2.deviceQueued s' = 0
                 /\ SDL2.SDL_AudioStreamAvailable (SDL2.stream s') = 0).
Proof.
  apply (X19_sdl2_seek_discards_pending_data 32 ideal_converted_size one 4096
           sdl2_loaded).
  - vm_compute. discriminate.
  - vm_compute. discriminate.
Defined.

Ltac sdl2_fields :=
  cbn [SDL2.stream SDL2.audioBuffer SDL2.isPlaying SDL2.volume SDL2.sampleRate
       SDL2.channels SDL2.playHead SDL2.deviceId SDL2.deviceFreq
       SDL2.deviceChannels SDL2.deviceQueued SDL2.devicePaused
       SDL2.set_stream SDL2.set_audioBuffer SDL2.set_isPlaying
       SDL2.set_volume_field SDL2.set_format SDL2.set_playHead
       SDL2.set_deviceFormat SDL2.set_deviceQueued SDL2.set_devicePaused].

(** [push_converted] changes the device queue and what the stream holds,
    nothing else. *)
Lemma sdl2_push_converted_fields conv (len : Z) (s : SDL2.PlayerState) :
  let r := SDL2.push_converted conv len s in
  SDL2.audioBuffer r = SDL2.audioBuffer s
  /\ SDL2.isPlaying r = SDL2.isPlaying s
  /\ SDL2.volume r = SDL2.volume s
  /\ SDL2.sampleRate r = SDL2.sampleRate s
  /\ SDL2.channels r = SDL2.channels s
  /\ SDL2.playHead r = SDL2.playHead s
  /\ SDL2.deviceId r = SDL2.deviceId s
  /\ SDL2.deviceFreq r = SDL2.deviceFreq s
  /\ SDL2.deviceChannels r = SDL2.deviceChannels s
  /\ SDL2.devicePaused r = SDL2.devicePaused s
  /\ SDL2.SDL_AudioStreamClear (SDL2.stream r)
     = SDL2.SDL_AudioStreamClear (SDL2.stream s).
Proof.
  unfold SDL2.push_converted. cbv zeta.
  assert (Hput : SDL2.SDL_AudioStreamClear
                   (SDL2.SDL_AudioStreamPut conv (SDL2.stream s) len)
                 = SDL2.SDL_AudioStreamClear (SDL2.stream s)).
  { destruct (SDL2.stream s) as [a|]; [|reflexivity]. cbn.
    now destruct (len <? 0). }
  destruct (0 <? _).
  - destruct (SDL2.SDL_AudioStreamGet _ _) as [got st'] eqn:Eget.
    assert (Hget : SDL2.SDL_AudioStreamClear st'
                   = SDL2.SDL_AudioStreamClear (SDL2.stream s)).
    { rewrite <- Hput. unfold SDL2.SDL_AudioStreamGet in Eget.
      destruct (SDL2.SDL_AudioStreamPut conv (SDL2.stream s) len) as [a|];
        injection Eget as _ <-; reflexivity. }
    destruct (0 <? got); sdl2_fields; now repeat split.
  - sdl2_fields. now repeat split.
Qed.

(** [seek] reads the device id, the format and the buffer; of the stream it
    keeps only what survives [SDL_AudioStreamClear]. *)
Lemma sdl2_seek_ext (w : Z) conv (t : F32.t) (s s' : SDL2.PlayerState) :
  SDL2.audioBuffer s' = SDL2.audioBuffer s ->
  SDL2.isPlaying s' = SDL2.isPlaying s ->
  SDL2.volume s' = SDL2.volume s ->
  SDL2.sampleRate s' = SDL2.sampleRate s ->
  SDL2.channels s' = SDL2.channels s ->
  SDL2.deviceId s' = SDL2.deviceId s ->
  SDL2.deviceFreq s' = SDL2.deviceFreq s ->
  SDL2.deviceChannels s' = SDL2.deviceChannels s ->
  SDL2.devicePaused s' = SDL2.devicePaused s ->
  SDL2.SDL_AudioStreamClear (SDL2.stream s')
  = SDL2.SDL_AudioStreamClear (SDL2.stream s) ->
  (SDL2.deviceId s =? 0) || (SDL2.size s =? 0) = false ->
  SDL2.seek w conv t s' = SDL2.seek w conv t s.
Proof.
  destruct s as [st buf ip vol sr ch ph dev df dc dq dp].
  destruct s' as [st' buf' ip' vol' sr' ch' ph' dev' df' dc' dq' dp'].
  sdl2_fields. intros -> -> -> -> -> -> -> -> -> Hclear Hg.
  unfold SDL2.seek, SDL2.seek_index, SDL2.size in *.
  cbn [SDL2.deviceId SDL2.audioBuffer] in Hg. sdl2_fields. rewrite Hg.
  destruct (F32.to_size _ _) as [n|]; [|reflexivity].
  destruct (CInt.wrap w ch =? 0); [reflexivity|].
  cbv zeta. sdl2_fields. now rewrite Hclear.
Qed.

(** X20.  In the SDL2 engine too a [seek] cancels the one before it. *)
Theorem X20_sdl2_seek_overrides_previous_seek :
  forall (w : Z) (conv : Z -> Z -> Z -> Z -> Z -> Z) (t1 t2 : F32.t)
         (s s1 : SDL2.PlayerState),
    SDL2.seek w conv t1 s = Some s1 ->
    SDL2.seek w conv t2 s1 = SDL2.seek w conv t2 s.
Proof.
  intros w conv t1 t2 s s1 H1.
  unfold SDL2.seek in H1.
  destruct ((SDL2.deviceId s =? 0) || (SDL2.size s =? 0)) eqn:Hg;
    [now injection H1 as <-|].
  destruct (SDL2.seek_index w t1 s) as [i1|]; [|discriminate].
  cbv zeta in H1.
  change (SDL2.isPlaying (SDL2.set_stream _ (SDL2.set_deviceQueued 0
            (SDL2.set_playHead i1 s)))) with (SDL2.isPlaying s) in H1.
  assert (Hcc : forall o, SDL2.SDL_AudioStreamClear (SDL2.SDL_AudioStreamClear o)
                          = SDL2.SDL_AudioStreamClear o)
    by (intros [a|]; reflexivity).
  destruct (SDL2.isPlaying s) eqn:Hp; injection H1 as <-.
  - match goal with
    | |- context [SDL2.push_converted conv ?len ?s0] =>
        destruct (sdl2_push_converted_fields conv len s0)
          as (Hb & Hip & Hv & Hr & Hch & _ & Hd & Hdf & Hdc & Hdp & Hc)
    end.
    apply sdl2_seek_ext; try assumption.
    rewrite Hc. sdl2_fields. apply Hcc.
  - apply sdl2_seek_ext; try reflexivity; try assumption.
    sdl2_fields. apply Hcc.
Qed.

Lemma X20_sdl2_seek_overrides_previous_seek_witness :
  match SDL2.seek 32 ideal_converted_size one
          (SDL2.play 32 ideal_converted_size sdl2_loaded) with
  | Some s1 =>
      SDL2.seek 32 ideal_converted_size half s1
      = SDL2.seek 32 ideal_converted_size half
          (SDL2.play 32 ideal_converted_size sdl2_loaded)
  | None => False
  end.
Proof.
  destruct (SDL2.seek 32 ideal_converted_size one
              (SDL2.play 32 ideal_converted_size sdl2_loaded)) as [s1|] eqn:E.
  - exact (X20_sdl2_seek_overrides_previous_seek 32 ideal_converted_size one half
             (SDL2.play 32 ideal_converted_size sdl2_loaded) s1 E).
  - vm_compute in E. discriminate E.
Defined.

(** X21.  In the SDL2 engine pausing and playing again is the identity on
    an engine that is playing with the device running, as long as the
    device still has bytes queued or the play-head is at the end. *)
Theorem X21_sdl2_pause_then_play_is_identity :
  forall (w : Z) (conv : Z -> Z -> Z -> Z -> Z -> Z) (s : SDL2.PlayerState),
    SDL2.deviceId s <> 0 ->
    SDL2.audioBuffer s <> [] ->
    SDL2.isPlaying s = true ->
    SDL2.devicePaused s = false ->
    CInt.wrap 32 (SDL2.deviceQueued s) <> 0 \/ SDL2.size s <= SDL2.playHead s ->
    SDL2.play w conv (SDL2.pause_audio s) = s.
Proof.
  intros w conv s Hd Hb Hp Hdp Hq.
  pose proof (sdl2_guard_open s Hd Hb) as Hg.
  destruct s as [st buf ip vol sr ch ph dev df dc dq dp].
  unfold SDL2.pause_audio, SDL2.play, SDL2.size in *.
  cbn [SDL2.deviceId SDL2.audioBuffer SDL2.isPlaying SDL2.devicePaused
       SDL2.deviceQueued SDL2.playHead] in Hg, Hp, Hdp, Hq.
  subst ip dp. sdl2_fields. cbn [negb]. sdl2_fields. rewrite Hg. cbv zeta.
  sdl2_fields.
  assert (Hc : (CInt.wrap 32 dq =? 0) && (ph <? Z.of_nat (length buf)) = false).
  { destruct Hq as [Hq | Hq].
    - apply andb_false_intro1, Z.eqb_neq. exact Hq.
    - apply andb_false_intro2, Z.ltb_ge. exact Hq. }
  now rewrite Hc.
Qed.

Lemma X21_sdl2_pause_then_play_is_identity_witness :
  SDL2.play 32 ideal_converted_size
    (SDL2.pause_audio (SDL2.play 32 ideal_converted_size sdl2_loaded))
  = SDL2.play 32 ideal_converted_size sdl2_loaded.
Proof.
  apply (X21_sdl2_pause_then_play_is_identity 32 ideal_converted_size
           (SDL2.play 32 ideal_converted_size sdl2_loaded)).
  - vm_compute. discriminate.
  - vm_compute. discriminate.
  - reflexivity.
  - reflexivity.
  - left. vm_compute. discriminate.
Defined.

(** X22.  An SDL2 load whose copy succeeds starts from scratch and opens
    its own device: when the device opens, only the stored volume survives
    from the state before, so the result is the same whether or not
    [init_audio] had succeeded and whatever was loaded, playing or queued.
    When the device fails to open, the device format of the earlier state is
    kept as well. *)
Theorem X22_sdl2_load_forgets_previous_track :
  forall (env : SDL2.LoadEnv) (data : list sample) (ch sr : Z)
         (s1 s2 : SDL2.PlayerState),
    SDL2.assign_result env = AssignOk ->
    SDL2.volume s1 = SDL2.volume s2 ->
    SDL2.dev_id (SDL2.device_open env) <> 0
    \/ (SDL2.deviceFreq s1 = SDL2.deviceFreq s2
        /\ SDL2.deviceChannels s1 = SDL2.deviceChannels s2) ->
    SDL2.set_audio_data env data ch sr s1 = SDL2.set_audio_data env data ch sr s2.
Proof.
  intros env data ch sr s1 s2 Hok Hv Hdev.
  unfold SDL2.set_audio_data. rewrite Hok.
  destruct s1 as [st1 b1 p1 v1 r1 c1 h1 d1 f1 dc1 q1 dp1].
  destruct s2 as [st2 b2 p2 v2 r2 c2 h2 d2 f2 dc2 q2 dp2].
  cbn in Hv, Hdev. subst v2.
  destruct (SDL2.dev_id (SDL2.device_open env) =? 0) eqn:E.
  - destruct Hdev as [Hdev | [-> ->]]; [apply Z.eqb_neq in Hdev; congruence|].
    destruct st1, st2; cbn; destruct (d1 =? 0), (d2 =? 0); reflexivity.
  - destruct st1, st2; cbn; destruct (d1 =? 0), (d2 =? 0); cbn;
      destruct (SDL2.new_stream_ok env); reflexivity.
Qed.

Lemma X22_sdl2_load_forgets_previous_track_witness :
  SDL2.set_audio_data env2 track16 2 2
    (SDL2.play 32 ideal_converted_size sdl2_silence)
  = SDL2.set_audio_data env2 track16 2 2 SDL2.g_state0.
Proof.
  apply (X22_sdl2_load_forgets_previous_track env2 track16 2 2
           (SDL2.play 32 ideal_converted_size sdl2_silence) SDL2.g_state0).
  - reflexivity.
  - reflexivity.
  - left. vm_compute. discriminate.
Defined.

(** X23.  SDL2 [play] on a paused engine whose device queue and stream are
    empty puts the bytes from the play-head to the end of the buffer
    through the stream and hands the device everything the stream yields
    for them; the stream is left with nothing to fetch. *)
Theorem X23_sdl2_play_queues_converted_segment :
  forall (w : Z) (conv : Z -> Z -> Z -> Z -> Z -> Z) (s : SDL2.PlayerState)
         (a : SDL2.AudioStream),
    32 <= w ->
    SDL2.deviceId s <> 0 ->
    SDL2.isPlaying s = false ->
    SDL2.stream s = Some a ->
    SDL2.st_avail a = 0 ->
    SDL2.deviceQueued s = 0 ->
    0 <= SDL2.playHead s < SDL2.size s ->
    SDL2.size s < 2 ^ 29 ->
    let c := conv (SDL2.src_channels a) (SDL2.src_rate a)
                  (SDL2.dst_channels a) (SDL2.dst_rate a)
                  ((SDL2.size s - SDL2.playHead s) * CInt.sizeof_float) in
    let s' := SDL2.play w conv s in
    SDL2.isPlaying s' = true
    /\ SDL2.devicePaused s' = false
    /\ SDL2.playHead s' = SDL2.playHead s
    /\ SDL2.deviceQueued s' = Z.max 0 c
    /\ SDL2.SDL_AudioStreamAvailable (SDL2.stream s') = Z.min 0 c.
Proof.
  intros w conv s a Hw Hd Hp Es Ha Hq Hph Hsz c s'. subst s'.
  assert (Hb : SDL2.audioBuffer s <> []).
  { unfold SDL2.size in Hph. destruct (SDL2.audioBuffer s); [cbn in Hph; lia|].
    discriminate. }
  pose proof (sdl2_guard_open s Hd Hb) as Hg.
  assert (H31 : 2 ^ 31 < 2 ^ w) by (apply Z.pow_lt_mono_r; lia).
  change (2 ^ 29) with 536870912 in *. change (2 ^ 31) with 2147483648 in *.
  unfold SDL2.play. rewrite Hg, Hp. cbv zeta.
  change (SDL2.deviceQueued (SDL2.set_devicePaused false (SDL2.set_isPlaying true s)))
    with (SDL2.deviceQueued s).
  change (SDL2.playHead (SDL2.set_devicePaused false (SDL2.set_isPlaying true s)))
    with (SDL2.playHead s).
  change (SDL2.size (SDL2.set_devicePaused false (SDL2.set_isPlaying true s)))
    with (SDL2.size s).
  rewrite Hq. change (CInt.wrap 32 0 =? 0) with true. cbn [andb].
  destruct (Z.ltb_spec (SDL2.playHead s) (SDL2.size s)); [|lia].
  rewrite (wrap_small w (SDL2.size s - SDL2.playHead s)) by lia.
  unfold CInt.sizeof_float in *.
  rewrite (wrap_small w ((SDL2.size s - SDL2.playHead s) * 4)) by lia.
  rewrite to_int_small by (change (2 ^ 31) with 2147483648; lia).
  unfold SDL2.push_converted. sdl2_fields. rewrite Es.
  unfold SDL2.SDL_AudioStreamPut.
  destruct (Z.ltb_spec ((SDL2.size s - SDL2.playHead s) * 4) 0); [lia|].
  cbn [SDL2.SDL_AudioStreamAvailable SDL2.SDL_AudioStreamGet SDL2.st_avail
       SDL2.src_channels SDL2.src_rate SDL2.dst_channels SDL2.dst_rate].
  rewrite Ha, Z.add_0_l. fold c.
  destruct (Z.ltb_spec 0 c).
  - rewrite Z.min_id. destruct (Z.ltb_spec 0 c); [|lia].
    sdl2_fields. cbn [SDL2.SDL_AudioStreamAvailable SDL2.st_avail].
    rewrite Hq. repeat split; lia.
  - sdl2_fields. cbn [SDL2.SDL_AudioStreamAvailable SDL2.st_avail].
    rewrite Hq. repeat split; lia.
Qed.

Lemma X23_sdl2_play_queues_converted_segment_witness :
  let c := ideal_converted_size 2 2 2 48000
             ((SDL2.size sdl2_loaded - SDL2.playHead sdl2_loaded)
              * CInt.sizeof_float) in
  let s' := SDL2.play 32 ideal_converted_size sdl2_loaded in
  SDL2.isPlaying s' = true
  /\ SDL2.devicePaused s' = false
  /\ SDL2.playHead s' = SDL2.playHead sdl2_loaded
  /\ SDL2.deviceQueued s' = Z.max 0 c
  /\ SDL2.SDL_AudioStreamAvailable (SDL2.stream s') = Z.min 0 c.
Proof.
  apply (X23_sdl2_play_queues_converted_segment 32 ideal_converted_size
           sdl2_loaded (SDL2.mkStream 2 2 2 48000 0)).
  - lia.
  - vm_compute. discriminate.
  - reflexivity.
  - reflexivity.
  - reflexivity.
  - reflexivity.
  - vm_compute. split; [discriminate | reflexivity].
  - vm_compute. reflexivity.
Defined.

(** ** The device id *)

(** X24.  The SDL2 engine does nothing while no device is open (device id
    0, as after a failed [init_audio] or a load whose device failed to
    open): [play], [resume_audio], [stop] and [seek] leave the state as it
    is and the reported time is 0. *)
Theorem X24_sdl2_inert_without_device :
  forall (w : Z) (conv : Z -> Z -> Z -> Z -> Z -> Z) (t : F32.t)
         (s : SDL2.PlayerState),
    SDL2.deviceId s = 0 ->
    SDL2.play w conv s = s
    /\ SDL2.resume_audio w conv s = s
    /\ SDL2.stop s = s
    /\ SDL2.seek w conv t s = Some s
    /\ SDL2.get_current_time w s = Some (F32.zero, s).
Proof.
  intros w conv t s Hd.
  pose proof (sdl2_play_unbound w conv s Hd) as Hplay.
  repeat match goal with |- _ /\ _ => split end.
  - exact Hplay.
  - rewrite sdl2_resume_is_play. exact Hplay.
  - unfold SDL2.stop. now rewrite Hd.
  - apply sdl2_seek_unbound. now left.
  - apply sdl2_time_unbound. now left.
Qed.

Lemma X24_sdl2_inert_without_device_witness :
  let s := SDL2.set_audio_data
             (SDL2.mkLoadEnv AssignOk (SDL2.mkDeviceOpen 0 0 0) false)
             track16 2 2 sdl2_ready in
  SDL2.play 32 ideal_converted_size s = s
  /\ SDL2.resume_audio 32 ideal_converted_size s = s
  /\ SDL2.stop s = s
  /\ SDL2.seek 32 ideal_converted_size one s = Some s
  /\ SDL2.get_current_time 32 s = Some (F32.zero, s).
Proof.
  apply (X24_sdl2_inert_without_device 32 ideal_converted_size one
           (SDL2.set_audio_data
              (SDL2.mkLoadEnv AssignOk (SDL2.mkDeviceOpen 0 0 0) false)
              track16 2 2 sdl2_ready)).
  reflexivity.
Defined.

(** X25.  No guard of the SDL3 engine tests the device id: the id is only
    handed to [SDL_ResumeAudioDevice] and [SDL_PauseAudioDevice].  So the
    engine's own fields (stream, buffer, playing flag, volume, format and
    play-head) after [play], [pause_audio], [resume_audio], [stop] and
    [seek], and the time reported, are the same whatever id the state
    holds, 0 included.  The pause flag of the device, which is what those
    two SDL calls act on, is left out of the comparison. *)
Theorem X25_sdl3_calls_ignore_device_id :
  forall (w d : Z) (t : F32.t) (s : SDL3.PlayerState),
    let engine_fields :=
      fun x : SDL3.PlayerState =>
        SDL3.set_devicePaused false (SDL3.set_deviceId 0 x) in
    engine_fields (SDL3.play w (SDL3.set_deviceId d s))
    = engine_fields (SDL3.play w s)
    /\ engine_fields (SDL3.pause_audio (SDL3.set_deviceId d s))
       = engine_fields (SDL3.pause_audio s)
    /\ engine_fields (SDL3.resume_audio (SDL3.set_deviceId d s))
       = engine_fields (SDL3.resume_audio s)
    /\ engine_fields (SDL3.stop (SDL3.set_deviceId d s))
       = engine_fields (SDL3.stop s)
    /\ option_map engine_fields (SDL3.seek w t (SDL3.set_deviceId d s))
       = option_map engine_fields (SDL3.seek w t s)
    /\ option_map fst (SDL3.get_current_time w (SDL3.set_deviceId d s))
       = option_map fst (SDL3.get_current_time w s).
Proof.
  intros w d t s. cbv zeta.
  destruct s as [st buf ip vol sr ch ph dev dp].
  repeat match goal with |- _ /\ _ => split end.
  - unfold SDL3.play, SDL3.size.
    cbn -[Z.of_nat CInt.wrap CInt.to_int Z.mul Z.sub Z.ltb Z.eqb].
    destruct st as [a|]; [|reflexivity].
    destruct (Z.of_nat (length buf) =? 0); [reflexivity|].
    destruct ip; [reflexivity|].
    now destruct (_ && _).
  - unfold SDL3.pause_audio. cbn. now destruct ip.
  - unfold SDL3.resume_audio. cbn. now destruct ip.
  - unfold SDL3.stop. cbn. now destruct st.
  - unfold SDL3.seek, SDL3.size.
    change (SDL3.seek_index w t (SDL3.set_deviceId d
              (SDL3.mkState st buf ip vol sr ch ph dev dp)))
      with (SDL3.seek_index w t (SDL3.mkState st buf ip vol sr ch ph dev dp)).
    cbn -[SDL3.seek_index Z.of_nat CInt.wrap CInt.to_int Z.mul Z.sub Z.ltb Z.eqb].
    destruct st as [a|]; [|reflexivity].
    destruct (Z.of_nat (length buf) =? 0); [reflexivity|].
    destruct (SDL3.seek_index w t _); [|reflexivity].
    destruct ip; [|reflexivity].
    now destruct (0 <? _).
  - unfold SDL3.get_current_time, SDL3.current_sample_index, SDL3.size.
    cbn -[Z.of_nat CInt.wrap CInt.to_int Z.mul Z.sub Z.ltb Z.eqb Z.div F32.div
          F32.of_Z].
    destruct st as [a|]; [|reflexivity].
    destruct (Z.of_nat (length buf) =? 0); [reflexivity|].
    now destruct (CInt.wrap w ch =? 0).
Qed.
